(** * Deadlock designer: the build state and the stats engine

    A shallow embedding of [src/components/HeroBuild.js] (the twelve item
    slots) and of [src/utils/calculator.js] (the stat formulas), with the
    properties the specification states about them.

    Conventions of the embedding.
    - Souls, item costs, ability points and upgrade levels are integers
      ([Z]).
    - The other JavaScript numbers (stat values) are the type [number]
      below: exact rationals extended with the two infinities and NaN.
      Rounding error and the sign of zero are not modelled.
    - A JavaScript object used as a dictionary is a [gmap string _].
    - A method of the class [HeroBuild] takes the object's state and
      returns the new state together with what the call produced. *)

From Stdlib Require Import ZArith QArith Qcanon Qround Ascii String.
From stdpp Require Import base numbers option list sorting strings gmap fin_maps.

Local Open Scope Z_scope.

(** ** JavaScript numbers *)

Inductive number : Type :=
  | Fin (q : Qc)
  | PosInf
  | NegInf
  | NaN.

#[global] Instance number_eq_dec : EqDecision number.
Proof. solve_decision. Defined.

Module Number.

Definition of_Z (z : Z) : number := Fin (Qc_of_Z z).

(** A decimal literal [n / d], as in [0.04 = of_frac 4 100]. *)
Definition of_frac (n : Z) (d : positive) : number := Fin (Q2Qc (n # d)).

Definition zero : number := of_Z 0.
Definition one : number := of_Z 1.

(** ToBoolean on a number: [0] and [NaN] are falsy. *)
Definition truthy (x : number) : bool :=
  match x with
  | Fin q => negb (bool_decide (q = 0%Qc))
  | PosInf | NegInf => true
  | NaN => false
  end.

Definition add (x y : number) : number :=
  match x, y with
  | NaN, _ | _, NaN => NaN
  | Fin a, Fin b => Fin (a + b)%Qc
  | PosInf, NegInf | NegInf, PosInf => NaN
  | PosInf, _ | _, PosInf => PosInf
  | NegInf, _ | _, NegInf => NegInf
  end.

Definition opp (x : number) : number :=
  match x with
  | Fin a => Fin (- a)%Qc
  | PosInf => NegInf
  | NegInf => PosInf
  | NaN => NaN
  end.

Definition sub (x y : number) : number := add x (opp y).

(** The sign of a finite value: [Gt] positive, [Lt] negative, [Eq] zero. *)
Definition sgn (a : Qc) : comparison := (a ?= 0)%Qc.

Definition signed_inf (s : comparison) : number :=
  match s with Gt => PosInf | Lt => NegInf | Eq => NaN end.

Definition flip (s : comparison) : comparison := CompOpp s.

Definition mul (x y : number) : number :=
  match x, y with
  | NaN, _ | _, NaN => NaN
  | Fin a, Fin b => Fin (a * b)%Qc
  | Fin a, PosInf | PosInf, Fin a => signed_inf (sgn a)
  | Fin a, NegInf | NegInf, Fin a => signed_inf (flip (sgn a))
  | PosInf, PosInf | NegInf, NegInf => PosInf
  | PosInf, NegInf | NegInf, PosInf => NegInf
  end.

(** Division; a zero divisor is taken as the positive zero. *)
Definition div (x y : number) : number :=
  match x, y with
  | NaN, _ | _, NaN => NaN
  | Fin a, Fin b =>
      if bool_decide (b = 0%Qc) then signed_inf (sgn a) else Fin (a / b)%Qc
  | Fin _, (PosInf | NegInf) => zero
  | PosInf, Fin b => match sgn b with Lt => NegInf | _ => PosInf end
  | NegInf, Fin b => match sgn b with Lt => PosInf | _ => NegInf end
  | (PosInf | NegInf), (PosInf | NegInf) => NaN
  end.

(** [x >= y]; false as soon as one side is NaN. *)
Definition geb (x y : number) : bool :=
  match x, y with
  | NaN, _ | _, NaN => false
  | Fin a, Fin b => bool_decide (b ≤ a)%Qc
  | PosInf, _ => true
  | _, NegInf => true
  | Fin _, PosInf | NegInf, (Fin _ | PosInf) => false
  end.

(** [Math.round]: the nearest integer, halves going up. *)
Definition round (x : number) : number :=
  match x with
  | Fin a => of_Z (Qfloor (a + Q2Qc (1 # 2))%Qc)
  | _ => x
  end.

(** [x || d] on numbers, where [None] is [undefined]. *)
Definition or_default (x : option number) (d : number) : number :=
  match x with
  | Some v => if truthy v then v else d
  | None => d
  end.

(** ToNumber on the value of a property read: [undefined] gives NaN. *)
Definition of_property (x : option number) : number := default NaN x.

End Number.

(** ** Items *)

Module Item.
Record t : Type := mk {
  id : string;
  name : string;
  category : option string;
  cost : Z;
  tier : Z;
  stats : option (gmap string number)
}.
End Item.
Abbreviation Item := Item.t.

#[global] Instance Item_eq_dec : EqDecision Item.
Proof. solve_decision. Defined.

(** ** Arrays

    [a[i] = v] on a JavaScript array: inside the array it overwrites, and
    past the end the array grows. The elements skipped over are holes; the
    readers used by [HeroBuild] ([some], [filter], truthiness of [a[i]])
    treat a hole as they treat [null], so a hole is [None] here. *)

Definition array_set {A : Type} (a : list (option A)) (i : nat) (v : option A)
    : list (option A) :=
  if decide (i < length a)%nat then <[i := v]> a
  else a ++ replicate (i - length a) None ++ [v].

(** ** The build state: [HeroBuild]

    The object's data is the array [slots]; [unlockThresholds] never
    changes after the constructor. The DOM side is kept only as far as it
    decides how a call ends: the slot grid has twelve children, so
    [updateSlotDisplay] dereferences [undefined] for an index past 11. *)

Record HeroBuild : Type := mkHeroBuild { slots : list (option Item) }.

#[global] Instance HeroBuild_eq_dec : EqDecision HeroBuild.
Proof. solve_decision. Defined.

(** How a call ends: it returns a value, or a TypeError escapes. *)
Inductive completion (A : Type) : Type :=
  | Returned (a : A)
  | TypeError.
Arguments Returned {A} a.
Arguments TypeError {A}.

(** Methods that write to the object. *)
Definition M (A : Type) : Type := HeroBuild → HeroBuild * completion A.

#[global] Instance M_ret : MRet M := λ A a b, (b, Returned a).
#[global] Instance M_bind : MBind M := λ A B f m b,
  match m b with
  | (b', Returned a) => f a b'
  | (b', TypeError) => (b', TypeError)
  end.

Definition read {A : Type} (f : HeroBuild → A) : M A := λ b, (b, Returned (f b)).
Definition throw {A : Type} : M A := λ b, (b, TypeError).

(** [this.slots[index] = v] *)
Definition assign (index : nat) (v : option Item) : M unit :=
  λ b, (mkHeroBuild (array_set (slots b) index v), Returned tt).

(** [l.forEach((x, i) => f(x, i))], counting from [i]. *)
Fixpoint forEach {A : Type} (f : A → nat → M unit) (l : list A) (i : nat) : M unit :=
  match l with
  | [] => mret tt
  | x :: l' => f x i ;; forEach f l' (S i)
  end.

(** A loop that carries a local variable of type [S]. *)
Fixpoint foldM {A S : Type} (f : S → A → M S) (s : S) (l : list A) : M S :=
  match l with
  | [] => mret s
  | x :: l' => s' ← f s x; foldM f s' l'
  end.

Definition when (c : bool) (m : M unit) : M unit := if c then m else mret tt.

(** [new Array(12).fill(null)] *)
Definition initial : HeroBuild := mkHeroBuild (replicate 12 None).

Definition unlockThresholds : list Z :=
  [0; 0; 0; 0; 0; 0; 0; 0; 0; 3000; 6000; 9000].

Definition getTotalSouls (b : HeroBuild) : Z :=
  foldl (λ sum item, sum + Item.cost item) 0 (omap id (slots b)).

(** [totalSouls < undefined] is false. *)
Definition isSlotLocked (b : HeroBuild) (index : nat) : bool :=
  let totalSouls := getTotalSouls b in
  match unlockThresholds !! index with
  | Some threshold => bool_decide (totalSouls < threshold)
  | None => false
  end.

Definition hasItem (b : HeroBuild) (itemId : string) : bool :=
  existsb (λ slot, match slot with
                   | Some it => bool_decide (Item.id it = itemId)
                   | None => false
                   end) (slots b).

Definition getEquippedItemIds (b : HeroBuild) : list string :=
  Item.id <$> omap id (slots b).

Definition getAllItems (b : HeroBuild) : list (option Item) := slots b.

(** Every branch of [updateSlotDisplay] starts with [slot.classList], which
    throws when [slot] is [undefined]. The other calls that end the
    methods below ([updateTotalSouls], [updateLockedSlots], which redraws
    the slots 9 to 11, and the [onStatsChange] notification) read the
    slots and write to the page only; they are left out. *)
Definition updateSlotDisplay (index : nat) : M unit :=
  if decide (index < 12)%nat then mret tt else throw.

(** The value [setItem] produced: [false], or one of the two objects. *)
Inductive SetItemResult : Type :=
  | ReturnedFalse
  | Duplicate
  | Success.

#[global] Instance SetItemResult_eq_dec : EqDecision SetItemResult.
Proof. solve_decision. Defined.

Definition setItem (index : nat) (item : Item) : M SetItemResult :=
  locked ← read (λ b, isSlotLocked b index);
  if (locked : bool) then mret ReturnedFalse
  else
    dup ← read (λ b, hasItem b (Item.id item));
    if (dup : bool) then mret Duplicate
    else
      assign index (Some item) ;;
      updateSlotDisplay index ;;
      mret Success.

Definition removeItem (index : nat) : M unit :=
  assign index None ;;
  updateSlotDisplay index.

Definition reset : M unit :=
  forEach (λ i _, assign i None ;; updateSlotDisplay i) (seq 0 12) 0%nat.

(** The persisted form of a build: [slots] is the array of the current
    format or the category-keyed object of the old one. *)
Inductive SlotsData : Type :=
  | SlotsArray (items : list (option Item))
  | SlotsByCategory (groups : gmap string (list (option Item))).

Module BuildData.
Record t : Type := mk { slots : option SlotsData }.
End BuildData.

(** The callback of [buildData.slots.forEach] for the array format. *)
Definition loadSlot (item : option Item) (index : nat) : M unit :=
  when (bool_decide (index < 12)%nat) (assign index item ;; updateSlotDisplay index).

Definition loadBuild (buildData : option BuildData.t) : M unit :=
  match buildData ≫= BuildData.slots with
  | None => mret tt
  | Some (SlotsArray items) => forEach loadSlot items 0%nat
  | Some (SlotsByCategory groups) =>
      foldM (λ slotIndex category,
          match groups !! category with
          | Some items =>
              foldM (λ (slotIndex : nat) (item : option Item),
                  when (bool_decide (slotIndex < 12)%nat && bool_decide (is_Some item))
                       (assign slotIndex item ;; updateSlotDisplay slotIndex) ;;
                  mret (S slotIndex))
                slotIndex items
          | None => mret slotIndex
          end)
        0%nat ["weapon"; "vitality"; "spirit"; "flex"] ;;
      mret tt
  end.

Definition getBuildData (b : HeroBuild) : BuildData.t :=
  BuildData.mk (Some (SlotsArray (slots b))).

(** ** The stats engine: [calculator.js] *)

Module Upgrade.
Record t : Type := mk { effect : string }.
End Upgrade.

Module Ability.
Record t : Type := mk {
  id : string;
  name : string;
  type : string;
  baseDamage : option number;
  spiritCoefficient : option number;
  cooldown : option number;
  duration : option number;
  range : option number;
  upgrades : list Upgrade.t
}.
End Ability.

Module Hero.
Record t : Type := mk {
  id : string;
  name : string;
  baseStats : gmap string number;
  abilities : list Ability.t
}.
End Hero.

(** [totals.track >= n], where a missing track is [undefined]. *)
Definition reaches (total : option Z) (n : Z) : bool :=
  match total with
  | Some v => bool_decide (n ≤ v)
  | None => false
  end.

Record InvestmentBonuses : Type := mkInvestmentBonuses {
  weapon_weaponDamage : number;
  vitality_health : number;
  spirit_spiritPower : number
}.

#[global] Instance InvestmentBonuses_eq_dec : EqDecision InvestmentBonuses.
Proof. solve_decision. Defined.

Definition calculateInvestmentBonuses (totals : gmap string Z) : InvestmentBonuses :=
  let weapon := totals !! "weapon" in
  let vitality := totals !! "vitality" in
  let spirit := totals !! "spirit" in
  {| weapon_weaponDamage :=
       if reaches weapon 12000 then Number.of_frac 28 100
       else if reaches weapon 5600 then Number.of_frac 18 100
       else if reaches weapon 2400 then Number.of_frac 10 100
       else if reaches weapon 800 then Number.of_frac 4 100
       else Number.zero;
     vitality_health :=
       if reaches vitality 12000 then Number.of_Z 375
       else if reaches vitality 5600 then Number.of_Z 225
       else if reaches vitality 2400 then Number.of_Z 125
       else if reaches vitality 800 then Number.of_Z 50
       else Number.zero;
     spirit_spiritPower :=
       if reaches spirit 12000 then Number.of_Z 40
       else if reaches spirit 5600 then Number.of_Z 24
       else if reaches spirit 2400 then Number.of_Z 12
       else if reaches spirit 800 then Number.of_Z 4
       else Number.zero |}.

Definition calculateEffectiveHealth (health resist : number) : number :=
  if Number.geb resist Number.one then PosInf
  else Number.div health (Number.sub Number.one resist).

(** What [calculateStats] returns: the numeric properties of the object
    [stats], and its one property that holds an object. *)
Record DerivedStats : Type := mkDerivedStats {
  values : gmap string number;
  investmentBonuses : InvestmentBonuses
}.

#[global] Instance DerivedStats_eq_dec : EqDecision DerivedStats.
Proof. solve_decision. Defined.

(** The value of [stats.k] inside an arithmetic expression. *)
Definition prop (stats : gmap string number) (k : string) : number :=
  Number.of_property (stats !! k).

(** One entry of [item.stats]; the three branches of the source do the same. *)
Definition applyStat (stat : string) (value : number) (stats : gmap string number)
    : gmap string number :=
  if bool_decide (stat = "health") || bool_decide (stat = "clipSize") then
    <[stat := Number.add (Number.or_default (stats !! stat) Number.zero) value]> stats
  else if bool_decide (stat = "healthRegen") || bool_decide (stat = "sprintSpeed")
          || bool_decide (stat = "stamina") then
    <[stat := Number.add (Number.or_default (stats !! stat) Number.zero) value]> stats
  else
    <[stat := Number.add (Number.or_default (stats !! stat) Number.zero) value]> stats.

(** The body of [items.forEach] on the pair of the two objects it updates. *)
Definition applyItem (acc : gmap string Z * gmap string number) (item : option Item)
    : gmap string Z * gmap string number :=
  match item with
  | None => acc
  | Some item =>
      let investmentTotals :=
        match Item.category item with
        | Some c =>
            if bool_decide (c = "") then acc.1
            else <[c := default 0 (acc.1 !! c) + Item.cost item]> acc.1
        | None => acc.1
        end in
      let stats :=
        match Item.stats item with
        | Some entries => map_fold applyStat acc.2 entries
        | None => acc.2
        end in
      (investmentTotals, stats)
  end.

(** [calculateStats], block by block as the source has it. The first
    block copies the base stats and initialises the derived fields. *)
Definition initializeStats (baseStats : gmap string number) : gmap string number :=
  let stats := baseStats in
  let stats := <["weaponDamage" := Number.zero]> stats in
  let stats := <["spiritPower" := Number.zero]> stats in
  let stats := <["bulletLifesteal" := Number.zero]> stats in
  let stats := <["spiritLifesteal" := Number.zero]> stats in
  let stats := <["bulletResist" := Number.zero]> stats in
  let stats := <["spiritResist" := Number.zero]> stats in
  let stats := <["cooldownReduction" := Number.zero]> stats in
  let stats := <["abilityRange" := Number.zero]> stats in
  let stats := <["abilityDuration" := Number.zero]> stats in
  <["stamina" := Number.or_default (stats !! "stamina") (Number.of_Z 3)]> stats.

(** "Apply investment bonuses to stats". The property [investmentBonuses]
    now holds an object, so it leaves the numeric properties. *)
Definition applyInvestmentBonuses (bonuses : InvestmentBonuses)
    (stats : gmap string number) : gmap string number :=
  let stats := delete "investmentBonuses" stats in
  let stats :=
    <["weaponDamage" := Number.add (prop stats "weaponDamage")
        (Number.or_default (Some (weapon_weaponDamage bonuses)) Number.zero)]> stats in
  let stats :=
    <["health" := Number.add (prop stats "health")
        (Number.or_default (Some (vitality_health bonuses)) Number.zero)]> stats in
  <["spiritPower" := Number.add (prop stats "spiritPower")
      (Number.or_default (Some (spirit_spiritPower bonuses)) Number.zero)]> stats.

(** "Calculate derived stats". *)
Definition deriveCombatStats (stats : gmap string number) : gmap string number :=
  let stats :=
    <["effectiveBulletDamage" :=
        Number.mul (prop stats "bulletDamage")
                   (Number.add Number.one (prop stats "weaponDamage"))]> stats in
  let stats :=
    <["dps" := Number.mul (prop stats "effectiveBulletDamage") (prop stats "fireRate")]> stats in
  let stats :=
    <["burstDamage" :=
        Number.mul (prop stats "effectiveBulletDamage") (prop stats "clipSize")]> stats in
  let stats :=
    <["effectiveHealth" :=
        calculateEffectiveHealth (prop stats "health") (prop stats "bulletResist")]> stats in
  <["effectiveHealthSpirit" :=
      calculateEffectiveHealth (prop stats "health") (prop stats "spiritResist")]> stats.

Definition calculateStats (hero : Hero.t) (items : list (option Item))
    (abilityUpgrades : gmap string Z) : DerivedStats :=
  let stats := initializeStats (Hero.baseStats hero) in
  let investmentTotals : gmap string Z :=
    {[ "weapon" := 0; "vitality" := 0; "spirit" := 0 ]} in
  let '(investmentTotals, stats) := foldl applyItem (investmentTotals, stats) items in
  let bonuses := calculateInvestmentBonuses investmentTotals in
  let stats := applyInvestmentBonuses bonuses stats in
  let stats := deriveCombatStats stats in
  let totalSouls :=
    foldl (λ sum item, sum + from_option Item.cost 0 item) 0 items in
  let stats := <["totalSouls" := Number.of_Z totalSouls]> stats in
  {| values := stats; investmentBonuses := bonuses |}.

(** *** The pattern [/\+(\d+)\s*(?:Damage|DPS)/i]

    A character of a [string] stands for the UTF-16 code unit of the same
    number, so the texts covered are those within Latin-1. *)

Definition is_digit (c : ascii) : bool :=
  let n := nat_of_ascii c in bool_decide (48 ≤ n ≤ 57)%nat.

(** [\s] within Latin-1: tab, line feed, vertical tab, form feed, carriage
    return, space and the no-break space. *)
Definition is_space (c : ascii) : bool :=
  let n := nat_of_ascii c in
  bool_decide (9 ≤ n ≤ 13)%nat || bool_decide (n = 32)%nat || bool_decide (n = 160)%nat.

(** Canonicalisation under the flag [i]: lower-case ASCII letters go to
    upper case; no other code unit is sent to an ASCII letter. *)
Definition canonicalize (c : ascii) : ascii :=
  let n := nat_of_ascii c in
  if bool_decide (97 ≤ n ≤ 122)%nat then ascii_of_nat (n - 32) else c.

(** The longest prefix whose characters satisfy [p], and what follows it. *)
Fixpoint span (p : ascii → bool) (s : list ascii) : list ascii * list ascii :=
  match s with
  | c :: s' =>
      if p c then let '(a, b) := span p s' in (c :: a, b)
      else ([], s)
  | [] => ([], [])
  end.

(** [s] starts with [word], letter case ignored. *)
Fixpoint starts_with (word s : list ascii) : bool :=
  match word, s with
  | [], _ => true
  | w :: word', c :: s' =>
      bool_decide (canonicalize c = canonicalize w) && starts_with word' s'
  | _ :: _, [] => false
  end.

Definition chars (s : string) : list ascii := list_ascii_of_string s.

(** The pattern tried at the start of [s]; the result is group 1. Both
    quantifiers are greedy, and giving back a digit or a space can never
    help: the character given back would have to start the next part. *)
Definition match_here (s : list ascii) : option (list ascii) :=
  match s with
  | "+"%char :: s1 =>
      let '(digits, s2) := span is_digit s1 in
      let '(_, s3) := span is_space s2 in
      if bool_decide (digits = []) then None
      else if starts_with (chars "Damage") s3 || starts_with (chars "DPS") s3
           then Some digits
      else None
  | _ => None
  end.

(** [text.match(pattern)]: the match that starts leftmost. *)
Fixpoint regex_match (text : list ascii) : option (list ascii) :=
  match match_here text with
  | Some group => Some group
  | None =>
      match text with
      | _ :: text' => regex_match text'
      | [] => None
      end
  end.

(** [parseInt] on a string of decimal digits. *)
Definition digit_value (c : ascii) : Z := Z.of_nat (nat_of_ascii c - 48).

Definition parseInt (digits : list ascii) : Z :=
  foldl (λ acc c, 10 * acc + digit_value c) 0 digits.

(** The lines [const match = ...; if (match) upgradeDamageBonus += ...]. *)
Definition addUpgradeDamage (upgrade : Upgrade.t) (upgradeDamageBonus : Z) : Z :=
  match regex_match (chars (Upgrade.effect upgrade)) with
  | Some group => upgradeDamageBonus + parseInt group
  | None => upgradeDamageBonus
  end.

Record AbilityDamage : Type := mkAbilityDamage {
  base : number;
  spiritBonus : number;
  upgradeBonus : Z;
  total : number
}.

#[global] Instance AbilityDamage_eq_dec : EqDecision AbilityDamage.
Proof. solve_decision. Defined.

Definition calculateAbilityDamage (ability : Ability.t) (spiritPower : number)
    (upgradeLevel : Z) : option AbilityDamage :=
  match Ability.baseDamage ability with
  | None => None
  | Some baseDamage =>
      if negb (Number.truthy baseDamage) then None
      else
        let coefficient :=
          Number.or_default (Ability.spiritCoefficient ability) Number.zero in
        let spiritBonus := Number.mul spiritPower coefficient in
        let upgradeDamageBonus := 0 in
        let upgradeDamageBonus :=
          match Ability.upgrades ability !! 0%nat with
          | Some u =>
              if bool_decide (1 ≤ upgradeLevel) then addUpgradeDamage u upgradeDamageBonus
              else upgradeDamageBonus
          | None => upgradeDamageBonus
          end in
        let upgradeDamageBonus :=
          match Ability.upgrades ability !! 1%nat with
          | Some u =>
              if bool_decide (2 ≤ upgradeLevel) then addUpgradeDamage u upgradeDamageBonus
              else upgradeDamageBonus
          | None => upgradeDamageBonus
          end in
        let upgradeDamageBonus :=
          match Ability.upgrades ability !! 2%nat with
          | Some u =>
              if bool_decide (3 ≤ upgradeLevel) then addUpgradeDamage u upgradeDamageBonus
              else upgradeDamageBonus
          | None => upgradeDamageBonus
          end in
        Some {| base := baseDamage;
                spiritBonus := Number.round spiritBonus;
                upgradeBonus := upgradeDamageBonus;
                total := Number.round
                  (Number.add (Number.add baseDamage spiritBonus)
                              (Number.of_Z upgradeDamageBonus)) |}
  end.

(** *** Ability points *)

Definition costs : list Z := [1; 2; 5].

(** [for (let i = 0; i < level && i < costs.length; i++) total += costs[i]],
    entered at index [i] with [rest] the costs from there on. *)
Fixpoint addCosts (i : nat) (rest : list Z) (level : Z) (total : Z) : Z :=
  match rest with
  | [] => total
  | c :: rest' =>
      if bool_decide (Z.of_nat i < level) then addCosts (S i) rest' level (total + c)
      else total
  end.

Definition calculateAbilityPointsUsed (abilityUpgrades : gmap string Z) : Z :=
  map_fold (λ _ level total, addCosts 0 costs level total) 0 abilityUpgrades.

Module Milestone.
Record t : Type := mk { souls : Z; points : Z }.
End Milestone.

Definition milestones : list Milestone.t :=
  [ Milestone.mk 0 1; Milestone.mk 1000 2; Milestone.mk 2500 3;
    Milestone.mk 4000 4; Milestone.mk 6000 5; Milestone.mk 8000 6;
    Milestone.mk 10000 7; Milestone.mk 13000 8; Milestone.mk 16000 9;
    Milestone.mk 20000 10; Milestone.mk 25000 11; Milestone.mk 30000 12 ].

(** The [for ... of] loop with its [break]. *)
Fixpoint scanMilestones (ms : list Milestone.t) (totalSouls : Z) (points : Z) : Z :=
  match ms with
  | [] => points
  | milestone :: ms' =>
      if bool_decide (Milestone.souls milestone ≤ totalSouls)
      then scanMilestones ms' totalSouls (Milestone.points milestone)
      else points
  end.

Definition getAbilityPointsAvailable (totalSouls : Z) : Z :=
  scanMilestones milestones totalSouls 0.

(** * Definitions used by the statements *)

(** The content of [this.slots[j]], where [null], a hole and an index past
    the end all read as "no item". *)
Definition slotAt (b : HeroBuild) (j : nat) : option Item :=
  match slots b !! j with
  | Some (Some it) => Some it
  | _ => None
  end.

(** The identifiers held by an array of slots. *)
Definition idsOf (a : list (option Item)) : list string := Item.id <$> omap id a.

Definition sampleItem (itemId : string) (c : Z) : Item :=
  Item.mk itemId itemId (Some "weapon") c 1 None.

(** One item of 500 souls in slot 0: the slots 9 to 11 are locked. *)
Definition buildOneItem : HeroBuild :=
  mkHeroBuild (Some (sampleItem "a" 500) :: replicate 11 None).

(** One item with a negative cost in slot 0. *)
Definition buildNegativeCost : HeroBuild :=
  mkHeroBuild (Some (sampleItem "refund" (-1)) :: replicate 11 None).

(** The unlock threshold of a slot as the specification gives it. *)
Definition specThreshold (i : nat) : Z :=
  if decide (i ≤ 8)%nat then 0
  else if decide (i = 9)%nat then 3000
  else if decide (i = 10)%nat then 6000
  else 9000.

(** The public operations that change a build. *)
Inductive Operation : Type :=
  | Equip (index : nat) (item : Item)
  | Unequip (index : nat)
  | Reset
  | Load (buildData : option BuildData.t).

Definition perform (b : HeroBuild) (op : Operation) : HeroBuild :=
  match op with
  | Equip index item => (setItem index item b).1
  | Unequip index => (removeItem index b).1
  | Reset => (reset b).1
  | Load buildData => (loadBuild buildData b).1
  end.

Definition performAll (ops : list Operation) : HeroBuild := foldl perform initial ops.

(** The operations for which the invariant is kept: slot indices within
    0..11, and a load only of an array of at least twelve entries whose
    first twelve hold no identifier twice (or of nothing at all). *)
Definition checked (op : Operation) : Prop :=
  match op with
  | Equip index _ | Unequip index => (index < 12)%nat
  | Reset => True
  | Load (Some (BuildData.mk (Some (SlotsArray items)))) =>
      (12 ≤ length items)%nat ∧ NoDup (idsOf (take 12 items))
  | Load (Some (BuildData.mk (Some (SlotsByCategory _)))) => False
  | Load (Some (BuildData.mk None)) | Load None => True
  end.

#[global] Instance checked_dec (op : Operation) : Decision (checked op).
Proof. destruct op as [? ?|?| |[[[[?|?]|]]|]]; simpl; apply _. Defined.

Definition sumZ (l : list Z) : Z := foldr Z.add 0 l.

(** The cost of a level as the specification gives it: the sum of the
    first [level] entries of the cost list. *)
Definition levelCost (level : Z) : Z := sumZ (take (Z.to_nat level) costs).

(** [m] is the milestone with the highest threshold that does not exceed
    [totalSouls]. *)
Definition highestMilestone (m : Milestone.t) (totalSouls : Z) : Prop :=
  m ∈ milestones ∧
  Milestone.souls m ≤ totalSouls ∧
  ∀ m', m' ∈ milestones → Milestone.souls m' ≤ totalSouls →
        Milestone.souls m' ≤ Milestone.souls m.

Definition breakpoints : list Z := [800; 2400; 5600; 12000].

(** The magnitudes of the three tracks at the four breakpoints. *)
Definition weaponTrack : list (Z * number) :=
  [ (800, Number.of_frac 4 100); (2400, Number.of_frac 10 100);
    (5600, Number.of_frac 18 100); (12000, Number.of_frac 28 100) ].

Definition vitalityTrack : list (Z * number) :=
  [ (800, Number.of_Z 50); (2400, Number.of_Z 125);
    (5600, Number.of_Z 225); (12000, Number.of_Z 375) ].

Definition spiritTrack : list (Z * number) :=
  [ (800, Number.of_Z 4); (2400, Number.of_Z 12);
    (5600, Number.of_Z 24); (12000, Number.of_Z 40) ].

(** [bp] is the highest breakpoint that does not exceed [total]. *)
Definition highestBreakpoint (bp total : Z) : Prop :=
  bp ∈ breakpoints ∧ bp ≤ total ∧
  ∀ bp', bp' ∈ breakpoints → bp' ≤ total → bp' ≤ bp.

(** The bonus of a track, read off its table: the magnitude at the highest
    breakpoint reached, and 0 below the first breakpoint. *)
Definition trackBonus (track : list (Z * number)) (total : Z) (bonus : number) : Prop :=
  (total < 800 → bonus = Number.zero) ∧
  (∀ bp magnitude, (bp, magnitude) ∈ track → highestBreakpoint bp total →
                   bonus = magnitude).

(** The accumulator fields that [calculateStats] starts at zero. *)
Definition derivedAccumulators : list string :=
  [ "weaponDamage"; "spiritPower"; "bulletLifesteal"; "spiritLifesteal";
    "bulletResist"; "spiritResist"; "cooldownReduction"; "abilityRange";
    "abilityDuration" ].

(** The base stats of a character. *)
Definition baseStatNames : list string :=
  [ "health"; "healthRegen"; "bulletDamage"; "fireRate"; "clipSize";
    "reloadTime"; "moveSpeed"; "sprintSpeed"; "stamina" ].

(** A character whose base stamina is zero. *)
Definition heroZeroStamina : Hero.t :=
  Hero.mk "hero" "Hero"
    {[ "health" := Number.of_Z 600; "bulletDamage" := Number.of_Z 10;
       "stamina" := Number.zero ]} [].

(** A character whose base stats leave stamina out. *)
Definition heroNoStamina : Hero.t :=
  Hero.mk "hero" "Hero"
    {[ "health" := Number.of_Z 600; "bulletDamage" := Number.of_Z 10 ]} [].






(** The ability of the specification's example: base damage 50 and spirit
    coefficient 0.5. *)
Definition exampleAbility : Ability.t :=
  Ability.mk "ability" "Ability" "basic"
    (Some (Number.of_Z 50)) (Some (Number.of_frac 1 2)) None None None
    [Upgrade.mk "+8 Damage"; Upgrade.mk "-10s Cooldown"; Upgrade.mk "+40 DPS"].


(** The invariant of the build: twelve slots, no identifier twice. *)
Definition uniqueIds (b : HeroBuild) : Prop :=
  length (slots b) = 12%nat ∧ NoDup (getEquippedItemIds b).

(** * More of the code: the rest of [HeroBuild.js], its callers in
    [main.js], [AbilityPanel.js] and the image addresses of [images.js] *)

(** [HeroBuild.getInvestmentByCategory]: the callback of [slots.forEach]. *)
Definition addInvestment (investment : gmap string Z) (slot : option Item)
    : gmap string Z :=
  match slot with
  | Some item =>
      match Item.category item with
      | Some c =>
          if bool_decide (c = "") then investment
          else <[c := default 0 (investment !! c) + Item.cost item]> investment
      | None => investment
      end
  | None => investment
  end.

Definition getInvestmentByCategory (b : HeroBuild) : gmap string Z :=
  foldl addInvestment {[ "weapon" := 0; "vitality" := 0; "spirit" := 0 ]} (slots b).

Definition getUnlockedSlotCount (b : HeroBuild) : nat :=
  let totalSouls := getTotalSouls b in
  if bool_decide (9000 ≤ totalSouls) then 12%nat
  else if bool_decide (6000 ≤ totalSouls) then 11%nat
  else if bool_decide (3000 ≤ totalSouls) then 10%nat
  else 9%nat.

(** [DeadlockDesigner.recalculateStats] in [main.js]: the stats it hands to
    the stat panel, and nothing when no hero is selected. *)
Definition recalculateStats (currentHero : option Hero.t) (b : HeroBuild)
    (abilityUpgrades : gmap string Z) : option DerivedStats :=
  match currentHero with
  | None => None
  | Some hero =>
      let items := filter (λ item, item ≠ None) (getAllItems b) in
      Some (calculateStats hero items abilityUpgrades)
  end.

(** [AbilityPanel.getTotalPointsUsed]: the loop runs up to [level] with no
    test against the length of [costs], and [costs[i]] past the end is
    [undefined]. *)
Definition addPanelCosts (level : Z) (total : number) : number :=
  foldl (λ total i, Number.add total (Number.of_property (Number.of_Z <$> costs !! i)))
        total (seq 0 (Z.to_nat level)).

Definition getTotalPointsUsed (upgrades : gmap string Z) : number :=
  map_fold (λ _ level total, addPanelCosts level total) Number.zero upgrades.

(** The click handler that [AbilityPanel.bindUpgradeEvents] puts on the
    button of tier [level] of the ability [abilityId]. *)
Definition clickUpgrade (upgrades : gmap string Z) (abilityId : string) (level : Z)
    : gmap string Z :=
  let currentLevel := default 0 (upgrades !! abilityId) in
  let isActive := bool_decide (level ≤ currentLevel) in
  if isActive then <[abilityId := level - 1]> upgrades
  else <[abilityId := level]> upgrades.

(** [AbilityPanel.setHero]: every ability starts at level 0. *)
Definition initialUpgrades (hero : Hero.t) : gmap string Z :=
  foldl (λ upgrades ability, <[Ability.id ability := 0]> upgrades) ∅ (Hero.abilities hero).

(** The callback of the inner [forEach] of [loadBuild] for the old format,
    on the local variable [slotIndex]. *)
Definition loadLegacySlot (slotIndex : nat) (item : option Item) : M nat :=
  when (bool_decide (slotIndex < 12)%nat && bool_decide (is_Some item))
       (assign slotIndex item ;; updateSlotDisplay slotIndex) ;;
  mret (S slotIndex).

(** ** The image addresses of [utils/images.js], used by [updateSlotDisplay] *)

Definition WIKI_BASE_URL : string := "https://deadlock.wiki/Special:Redirect/file/".

(** [s.replace(/\s+/g, '_')]: every maximal run of white space becomes one
    underscore. [inRun] tells that the character before was white space,
    so that the run has its underscore already. *)
Fixpoint replaceWhitespace (inRun : bool) (s : list ascii) : list ascii :=
  match s with
  | [] => []
  | c :: s' =>
      if is_space c then
        if inRun then replaceWhitespace true s' else "_"%char :: replaceWhitespace true s'
      else c :: replaceWhitespace false s'
  end.

(** [s.replace(/'/g, '%27')]. *)
Definition replaceApostrophes (s : list ascii) : list ascii :=
  flat_map (λ c, if bool_decide (c = "'"%char) then chars "%27" else [c]) s.

(** [getItemImageUrl]; [None] as argument is a missing name, [None] as
    result is [null]. *)
Definition getItemImageUrl (itemName : option (list ascii)) : option (list ascii) :=
  match itemName with
  | None | Some [] => None
  | Some itemName =>
      let wikiName := replaceApostrophes (replaceWhitespace false itemName) in
      Some (chars WIKI_BASE_URL ++ wikiName ++ chars ".png")
  end.

(** ** Definitions used by the further statements *)

Definition costOf (slot : option Item) : Z := from_option Item.cost 0 slot.

(** The entries of the old format, flattened in the order in which
    [loadBuild] reads the groups. *)
Definition flattenGroups (groups : gmap string (list (option Item)))
    : list (option Item) :=
  default [] (groups !! "weapon") ++ default [] (groups !! "vitality")
  ++ default [] (groups !! "spirit") ++ default [] (groups !! "flex").

(** The spend of one category, 0 when the category is not in the object. *)
Definition spend (investment : gmap string Z) (c : string) : Z :=
  default 0 (investment !! c).

(** The modifier an entry of the item list has for the stat [k]. *)
Definition modifier (k : string) (item : option Item) : option number :=
  match item with
  | Some it =>
      match Item.stats it with
      | Some entries => entries !! k
      | None => None
      end
  | None => None
  end.

(** The value of the stat [k] after the items, one item after the other:
    an item that has a modifier for [k] adds it to the value so far, which
    counts as 0 when it is unset, zero or NaN. *)
Definition accumulateStat (k : string) (start : option number)
    (items : list (option Item)) : option number :=
  foldl (λ current item,
      match modifier k item with
      | Some value => Some (Number.add (Number.or_default current Number.zero) value)
      | None => current
      end) start items.


(** The order of the numbers, false as soon as one side is NaN. *)
Definition numLe (x y : number) : Prop := Number.geb y x = true.

(** A character that an address keeps as it is. *)
Definition plain (c : ascii) : Prop := is_space c = false ∧ c ≠ "'"%char.

(** * Properties of the build state *)

Ltac unfold_M :=
  unfold mbind, M_bind, mret, M_ret, read, assign, throw, when, updateSlotDisplay.

Section array_set.
Context {A : Type}.
Implicit Types (a : list (option A)) (v : option A).

Lemma array_set_lookup_eq a i v : array_set a i v !! i = Some v.
Proof.
  unfold array_set. case_decide as Hi.
  - by apply list_lookup_insert_eq.
  - rewrite lookup_app_r by lia.
    rewrite lookup_app_r; rewrite length_replicate; [|lia].
    by replace (i - length a - (i - length a))%nat with 0%nat by lia.
Qed.

Lemma array_set_lookup_ne a i j v :
  j ≠ i → array_set a i v !! j ≫= id = a !! j ≫= id.
Proof.
  intros Hne. unfold array_set. case_decide as Hi.
  - by rewrite list_lookup_insert_ne.
  - destruct (decide (j < length a)%nat) as [Hj|Hj].
    + by rewrite lookup_app_l.
    + rewrite (lookup_ge_None_2 a j) by lia.
      rewrite lookup_app_r by lia.
      destruct (decide (j - length a < i - length a)%nat) as [Hg|Hg].
      * rewrite lookup_app_l by (rewrite length_replicate; lia).
        by rewrite lookup_replicate_2.
      * rewrite lookup_app_r by (rewrite length_replicate; lia).
        rewrite length_replicate.
        destruct (j - length a - (i - length a))%nat as [|k] eqn:Hk; [lia|done].
Qed.

Lemma array_set_length_in a i v :
  (i < length a)%nat → length (array_set a i v) = length a.
Proof. intros Hi. unfold array_set. rewrite decide_True by done. apply length_insert. Qed.

(** An assignment changes one place of the sequence of held values. *)
Lemma array_set_omap a i v :
  ∃ l1 l2 old,
    omap id a = l1 ++ option_list old ++ l2 ∧
    omap id (array_set a i v) = l1 ++ option_list v ++ l2.
Proof.
  unfold array_set. case_decide as Hi.
  - destruct (lookup_lt_is_Some_2 a i Hi) as [x Hx].
    exists (omap id (take i a)), (omap id (drop (S i) a)), x. split.
    + rewrite <- (take_drop_middle a i x Hx) at 1.
      rewrite omap_app. simpl. by destruct x.
    + rewrite insert_take_drop by done.
      rewrite omap_app. simpl. by destruct v.
  - exists (omap id a), [], None. split.
    + simpl. by rewrite app_nil_r.
    + rewrite !omap_app. rewrite app_nil_r.
      f_equal. replace (omap id (replicate (i - length a) None)) with (@nil A).
      * by destruct v.
      * induction (i - length a)%nat; [done|]. simpl. done.
Qed.
End array_set.

Section hero_build.
Implicit Types (b : HeroBuild) (item : Item) (a : list (option Item)).

Lemma hasItem_idsOf b x : hasItem b x = true ↔ x ∈ idsOf (slots b).
Proof.
  unfold hasItem, idsOf. destruct b as [a]. simpl.
  induction a as [|[it|] a IH]; simpl.
  - split; [done|]. by intros ?%elem_of_nil.
  - rewrite orb_true_iff, IH, bool_decide_eq_true, elem_of_cons. intuition auto.
  - by rewrite IH.
Qed.

Lemma hasItem_slotAt b x :
  hasItem b x = true ↔ ∃ j it, slotAt b j = Some it ∧ Item.id it = x.
Proof.
  rewrite hasItem_idsOf. unfold idsOf, slotAt.
  rewrite list_elem_of_fmap. split.
  - intros (it & -> & Hin). apply list_elem_of_omap in Hin as (o & Ho & Hid).
    apply list_elem_of_lookup in Ho as [j Hj]. exists j, it.
    rewrite Hj. destruct o; simpl in *; by simplify_eq.
  - intros (j & it & Hj & <-). exists it. split; [done|].
    destruct (slots b !! j) as [[it'|]|] eqn:E; simplify_eq.
    apply list_elem_of_omap. exists (Some it). split; [|done].
    apply list_elem_of_lookup. eauto.
Qed.

Lemma slotAt_assign_eq b i v :
  slotAt (mkHeroBuild (array_set (slots b) i v)) i = v.
Proof. unfold slotAt. simpl. rewrite array_set_lookup_eq. by destruct v. Qed.

Lemma slotAt_assign_ne b i j v :
  j ≠ i → slotAt (mkHeroBuild (array_set (slots b) i v)) j = slotAt b j.
Proof.
  intros Hne. unfold slotAt. simpl.
  pose proof (array_set_lookup_ne (slots b) i j v Hne) as H.
  destruct (array_set (slots b) i v !! j) as [[?|]|], (slots b !! j) as [[?|]|];
    simpl in H; by simplify_eq.
Qed.

(** What [setItem] does, branch by branch. *)
Lemma setItem_locked b index item :
  isSlotLocked b index = true → setItem index item b = (b, Returned ReturnedFalse).
Proof. intros H. unfold setItem. unfold_M. by rewrite H. Qed.

Lemma setItem_duplicate b index item :
  isSlotLocked b index = false → hasItem b (Item.id item) = true →
  setItem index item b = (b, Returned Duplicate).
Proof. intros H1 H2. unfold setItem. unfold_M. by rewrite H1, H2. Qed.

Lemma setItem_fresh b index item :
  isSlotLocked b index = false → hasItem b (Item.id item) = false →
  setItem index item b =
    (mkHeroBuild (array_set (slots b) index (Some item)),
     if decide (index < 12)%nat then Returned Success else TypeError).
Proof.
  intros H1 H2. unfold setItem. unfold_M. rewrite H1, H2. simpl.
  by case_decide.
Qed.

Lemma removeItem_run b index :
  removeItem index b =
    (mkHeroBuild (array_set (slots b) index None),
     if decide (index < 12)%nat then Returned tt else TypeError).
Proof. unfold removeItem. unfold_M. simpl. by case_decide. Qed.

Lemma foldl_cost_shift (l : list Item) (acc : Z) :
  foldl (λ sum it, sum + Item.cost it) acc l
  = acc + foldl (λ sum it, sum + Item.cost it) 0 l.
Proof.
  revert acc. induction l as [|it l IH]; intros acc; simpl; [lia|].
  rewrite (IH (acc + Item.cost it)), (IH (0 + Item.cost it)). lia.
Qed.

Lemma foldl_cost_nonneg (l : list Item) :
  Forall (λ it, 0 ≤ Item.cost it) l →
  0 ≤ foldl (λ sum it, sum + Item.cost it) 0 l.
Proof.
  induction 1 as [|it l Hit _ IH]; simpl; [lia|].
  rewrite foldl_cost_shift. lia.
Qed.

Lemma getTotalSouls_nonneg b :
  Forall (λ s, ∀ it, s = Some it → 0 ≤ Item.cost it) (slots b) →
  0 ≤ getTotalSouls b.
Proof.
  intros Hall. apply foldl_cost_nonneg.
  apply Forall_forall. intros it (s & Hs & Hid)%list_elem_of_omap.
  rewrite Forall_forall in Hall. apply (Hall s Hs). by destruct s; simplify_eq/=.
Qed.
End hero_build.

(** ** C1: equip of an item that is already equipped *)

(** C1, as stated, fails: with item "a" in slot 0 and 500 souls spent, slot 9
    is locked, and equipping "a" again into slot 9 returns [false], not the
    duplicate rejection. *)
Lemma setItem_duplicate_into_locked_slot :
  hasItem buildOneItem "a" = true ∧
  isSlotLocked buildOneItem 9 = true ∧
  setItem 9 (sampleItem "a" 500) buildOneItem = (buildOneItem, Returned ReturnedFalse) ∧
  (setItem 9 (sampleItem "a" 500) buildOneItem).2 ≠ Returned Duplicate.
Proof. repeat split; done. Qed.

(** C1, amended: equip of an item whose identifier is already in some slot
    never changes the build; it returns the duplicate rejection when the
    target slot is not locked, and [false] when the target slot is locked,
    since the lock is tested first. *)
Theorem setItem_already_equipped (b : HeroBuild) (index : nat) (item : Item) :
  hasItem b (Item.id item) = true →
  setItem index item b
  = (b, Returned (if isSlotLocked b index then ReturnedFalse else Duplicate)).
Proof.
  intros Hdup. destruct (isSlotLocked b index) eqn:Hlock.
  - by apply setItem_locked.
  - by apply setItem_duplicate.
Qed.

Lemma setItem_already_equipped_witness :
  hasItem buildOneItem (Item.id (sampleItem "a" 500)) = true ∧
  setItem 1 (sampleItem "a" 500) buildOneItem = (buildOneItem, Returned Duplicate).
Proof.
  split; [reflexivity|].
  exact (setItem_already_equipped buildOneItem 1 (sampleItem "a" 500) eq_refl).
Defined.

(** ** C3: locked slots *)

(** C3, as stated, fails in its last part: a build whose only item has cost
    -1 has a negative total, and slot 0 is then locked. *)
Lemma isSlotLocked_base_slot_negative_total :
  getTotalSouls buildNegativeCost = -1 ∧ isSlotLocked buildNegativeCost 0 = true.
Proof. split; reflexivity. Qed.

(** C3, amended: for every build and every slot index [i] in 0..11,
    [isSlotLocked i] is [totalSouls < threshold i], with threshold 0 for
    the slots 0..8 and 3000, 6000, 9000 for the slots 9, 10, 11. So slot 9
    is locked iff [totalSouls < 3000], slot 10 iff [< 6000], slot 11 iff
    [< 9000], and a slot [i < 9] is locked iff [totalSouls < 0]: never when
    no item has a negative cost. *)
Theorem isSlotLocked_threshold (b : HeroBuild) (i : nat) :
  (i < 12)%nat →
  isSlotLocked b i = bool_decide (getTotalSouls b < specThreshold i) ∧
  (isSlotLocked b 9 = true ↔ getTotalSouls b < 3000) ∧
  (isSlotLocked b 10 = true ↔ getTotalSouls b < 6000) ∧
  (isSlotLocked b 11 = true ↔ getTotalSouls b < 9000) ∧
  ((i < 9)%nat → (isSlotLocked b i = true ↔ getTotalSouls b < 0)) ∧
  ((i < 9)%nat →
   Forall (λ s, ∀ it, s = Some it → 0 ≤ Item.cost it) (slots b) →
   isSlotLocked b i = false).
Proof.
  intros Hi.
  assert (Hspec : isSlotLocked b i = bool_decide (getTotalSouls b < specThreshold i)).
  { unfold isSlotLocked.
    do 12 (destruct i as [|i]; [reflexivity|]). lia. }
  split; [exact Hspec|].
  unfold isSlotLocked at 1 2 3. simpl.
  rewrite !bool_decide_eq_true.
  split; [done|]. split; [done|]. split; [done|].
  assert (Hlow : (i < 9)%nat → specThreshold i = 0).
  { intros Hlt. unfold specThreshold. by rewrite decide_True by lia. }
  split.
  - intros Hlt. by rewrite Hspec, (Hlow Hlt), bool_decide_eq_true.
  - intros Hlt Hall. rewrite Hspec, (Hlow Hlt).
    apply bool_decide_eq_false. pose proof (getTotalSouls_nonneg b Hall). lia.
Qed.

Lemma isSlotLocked_threshold_witness :
  (9 < 12)%nat ∧
  isSlotLocked buildOneItem 9 = bool_decide (getTotalSouls buildOneItem < specThreshold 9).
Proof.
  split; [lia|].
  exact (proj1 (isSlotLocked_threshold buildOneItem 9 ltac:(lia))).
Defined.

(** ** C8: equip of a new item into a slot that is not locked *)

(** C8, as stated, fails: slot 0 holds "a"; equipping "b" there succeeds and
    "a" is no longer in the build. *)
Lemma setItem_overwrites_occupied_slot :
  hasItem buildOneItem "a" = true ∧
  isSlotLocked buildOneItem 0 = false ∧
  hasItem buildOneItem "b" = false ∧
  setItem 0 (sampleItem "b" 800) buildOneItem
  = (mkHeroBuild (Some (sampleItem "b" 800) :: replicate 11 None), Returned Success) ∧
  hasItem (setItem 0 (sampleItem "b" 800) buildOneItem).1 "a" = false.
Proof. repeat split; done. Qed.

(** C8, amended: for every build, every slot index [i] in 0..11 that is not
    locked and every item whose identifier is in no slot, equip at [i]
    succeeds; afterwards slot [i] holds the new item and every other slot
    holds what it held before. The item that was in slot [i], if any, is
    overwritten; when slot [i] was empty no equipped item leaves the
    build. *)
Theorem setItem_new_item (b : HeroBuild) (i : nat) (item : Item) :
  (i < 12)%nat →
  isSlotLocked b i = false →
  hasItem b (Item.id item) = false →
  ∃ b',
    setItem i item b = (b', Returned Success) ∧
    slotAt b' i = Some item ∧
    (∀ j, j ≠ i → slotAt b' j = slotAt b j) ∧
    (slotAt b i = None → ∀ x, hasItem b x = true → hasItem b' x = true).
Proof.
  intros Hi Hlock Hfresh.
  exists (mkHeroBuild (array_set (slots b) i (Some item))).
  split; [|split; [|split]].
  - rewrite setItem_fresh by done. by rewrite decide_True.
  - apply slotAt_assign_eq.
  - intros j Hj. by apply slotAt_assign_ne.
  - intros Hempty x (j & it & Hj & Hid)%hasItem_slotAt.
    apply hasItem_slotAt. exists j, it. split; [|done].
    rewrite slotAt_assign_ne; [done|]. intros ->. congruence.
Qed.

Lemma setItem_new_item_witness :
  (1 < 12)%nat ∧
  isSlotLocked buildOneItem 1 = false ∧
  hasItem buildOneItem (Item.id (sampleItem "b" 800)) = false ∧
  ∃ b', setItem 1 (sampleItem "b" 800) buildOneItem = (b', Returned Success).
Proof.
  split; [lia|]. split; [reflexivity|]. split; [reflexivity|].
  destruct (setItem_new_item buildOneItem 1 (sampleItem "b" 800)
              ltac:(lia) eq_refl eq_refl) as (b' & H & _).
  by exists b'.
Defined.

(** ** Loading a build *)

Section load_build.
Implicit Types (b : HeroBuild) (a items : list (option Item)).

Lemma loadBuild_array items b :
  loadBuild (Some (BuildData.mk (Some (SlotsArray items)))) b
  = forEach loadSlot items 0%nat b.
Proof. reflexivity. Qed.

Lemma loadSlot_run item index b :
  loadSlot item index b
  = (if decide (index < 12)%nat
     then mkHeroBuild (array_set (slots b) index item) else b,
     Returned tt).
Proof.
  unfold loadSlot. unfold_M. case_bool_decide; simpl.
  - by rewrite !decide_True by done.
  - by rewrite decide_False by done.
Qed.

Lemma forEach_cons {A : Type} (f : A → nat → M unit) x l i b :
  forEach f (x :: l) i b
  = match f x i b with
    | (b', Returned _) => forEach f l (S i) b'
    | (b', TypeError) => (b', TypeError)
    end.
Proof. reflexivity. Qed.

(** Read into a build of twelve slots from index [i] on, the items
    replace the slots [i], [i+1], ... up to slot 11. *)
Lemma forEach_loadSlot items i a :
  length a = 12%nat →
  forEach loadSlot items i (mkHeroBuild a)
  = (mkHeroBuild (take i a ++ take (12 - i) items ++ drop (i + length items) a),
     Returned tt).
Proof.
  revert i a. induction items as [|x items IH]; intros i a Hlen.
  - simpl. unfold_M. rewrite take_nil. simpl. rewrite Nat.add_0_r.
    by rewrite take_drop.
  - rewrite forEach_cons, loadSlot_run. simpl length.
    case_decide as Hi.
    + rewrite IH by (simpl; rewrite array_set_length_in; lia).
      do 2 f_equal. simpl slots. unfold array_set. rewrite decide_True by lia.
      replace (12 - i)%nat with (S (12 - S i)) by lia.
      rewrite firstn_cons.
      rewrite drop_insert_lt by lia.
      replace (S i + length items)%nat with (i + S (length items))%nat by lia.
      assert (Hx : take (S i) (<[i:=x]> a) = take i a ++ [x]).
      { rewrite (take_S_r _ _ x); [|by apply list_lookup_insert_eq; lia].
        by rewrite take_insert_ge by lia. }
      rewrite Hx. by rewrite <- app_assoc.
    + rewrite IH by done.
      do 2 f_equal.
      rewrite (take_ge a (S i)), (take_ge a i) by lia.
      replace (12 - S i)%nat with 0%nat by lia.
      replace (12 - i)%nat with 0%nat by lia.
      rewrite (drop_ge a (S i + _)), (drop_ge a (i + _)) by lia.
      by rewrite !take_0.
Qed.

Lemma loadBuild_full_array items b :
  length (slots b) = 12%nat → (12 ≤ length items)%nat →
  loadBuild (Some (BuildData.mk (Some (SlotsArray items)))) b
  = (mkHeroBuild (take 12 items), Returned tt).
Proof.
  intros Hb Hitems. rewrite loadBuild_array. destruct b as [a]. simpl in Hb.
  rewrite forEach_loadSlot by done. simpl.
  rewrite drop_ge by lia. by rewrite app_nil_r.
Qed.

Lemma reset_twelve b :
  length (slots b) = 12%nat → reset b = (initial, Returned tt).
Proof.
  destruct b as [a]. simpl. intros Hlen.
  do 12 (destruct a as [|? a]; [done|]).
  destruct a; [reflexivity|done].
Qed.
End load_build.

(** ** C9: saving and loading *)

(** C9: for every build of twelve slots, loading what [getBuildData]
    returned restores the same twelve slots, whichever twelve-slot build
    it is loaded into (the build itself, or a fresh one). *)
Theorem loadBuild_getBuildData (b target : HeroBuild) :
  length (slots b) = 12%nat →
  length (slots target) = 12%nat →
  loadBuild (Some (getBuildData b)) target = (b, Returned tt).
Proof.
  intros Hb Ht. unfold getBuildData.
  rewrite loadBuild_full_array by lia.
  destruct b as [a]. simpl in *. by rewrite take_ge by lia.
Qed.

Lemma loadBuild_getBuildData_witness :
  length (slots buildOneItem) = 12%nat ∧
  length (slots initial) = 12%nat ∧
  loadBuild (Some (getBuildData buildOneItem)) initial = (buildOneItem, Returned tt).
Proof.
  split; [reflexivity|]. split; [reflexivity|].
  exact (loadBuild_getBuildData buildOneItem initial eq_refl eq_refl).
Defined.

(** ** C2: no identifier in two slots *)

(** C2, as stated, fails: loading an array that holds the item "a" twice
    into the empty build puts "a" into the slots 0 and 1. *)
Lemma loadBuild_stores_duplicates :
  let twice := [Some (sampleItem "a" 500); Some (sampleItem "a" 500)] in
  let b := performAll [Load (Some (BuildData.mk (Some (SlotsArray twice))))] in
  getEquippedItemIds b = ["a"; "a"] ∧ ¬ NoDup (getEquippedItemIds b).
Proof.
  split; [reflexivity|].
  intros Hnd. apply NoDup_cons in Hnd as [Hnotin _].
  apply Hnotin. by apply list_elem_of_here.
Qed.

Section invariant.
Implicit Types (b : HeroBuild) (a : list (option Item)).

Lemma NoDup_replace (l1 l2 : list Item) (old v : option Item) :
  NoDup (Item.id <$> l1 ++ option_list old ++ l2) →
  (∀ it, v = Some it → Item.id it ∉ Item.id <$> l1 ++ option_list old ++ l2) →
  NoDup (Item.id <$> l1 ++ option_list v ++ l2).
Proof.
  rewrite !fmap_app, !NoDup_app. intros (H1 & H12 & Hold & Hol2 & H2) Hv.
  assert (Hl12 : ∀ x, x ∈ Item.id <$> l1 → x ∉ Item.id <$> l2).
  { intros x Hx. specialize (H12 x Hx). rewrite elem_of_app in H12. tauto. }
  destruct v as [it|]; simpl.
  - specialize (Hv it eq_refl). rewrite !elem_of_app in Hv.
    split; [done|]. split; [|split; [apply NoDup_singleton|split; [|done]]].
    + intros x Hx. rewrite elem_of_cons.
      intros [->|Hx2]; [tauto|]. by apply (Hl12 x).
    + intros x ->%list_elem_of_singleton. tauto.
  - split; [done|]. split; [done|]. split; [apply NoDup_nil_2|]. split; [|done].
    by intros x []%elem_of_nil.
Qed.

Lemma uniqueIds_assign b index v :
  (index < 12)%nat → uniqueIds b →
  (∀ it, v = Some it → hasItem b (Item.id it) = false) →
  uniqueIds (mkHeroBuild (array_set (slots b) index v)).
Proof.
  intros Hi [Hlen Hnd] Hv. split; simpl.
  - rewrite array_set_length_in; lia.
  - unfold getEquippedItemIds in *. simpl.
    destruct (array_set_omap (slots b) index v) as (l1 & l2 & old & Ha & Ha').
    rewrite Ha'. rewrite Ha in Hnd. apply (NoDup_replace l1 l2 old v Hnd).
    intros it Hit. specialize (Hv it Hit).
    rewrite <- Ha. intros Hin. apply hasItem_idsOf in Hin. congruence.
Qed.

Lemma uniqueIds_initial : uniqueIds initial.
Proof. split; [reflexivity|]. apply NoDup_nil_2. Qed.

Lemma uniqueIds_perform b op : checked op → uniqueIds b → uniqueIds (perform b op).
Proof.
  intros Hop Hb. destruct op as [index item|index| |buildData]; cbn [perform checked] in *.
  - destruct (isSlotLocked b index) eqn:Hlock.
    { by rewrite setItem_locked. }
    destruct (hasItem b (Item.id item)) eqn:Hhas.
    { by rewrite setItem_duplicate. }
    rewrite setItem_fresh by done. simpl.
    apply uniqueIds_assign; [done..|]. by intros it [= <-].
  - rewrite removeItem_run. simpl. by apply uniqueIds_assign.
  - rewrite reset_twelve by apply Hb. apply uniqueIds_initial.
  - destruct buildData as [[[[items|groups]|]]|]; try done.
    destruct Hop as [Hlen Hnd]. rewrite loadBuild_full_array by (done || apply Hb).
    split; simpl; [|done]. rewrite length_take. lia.
Qed.
End invariant.

(** C2, amended: in every build reached from the empty build by equip,
    unequip (slot indices in 0..11), reset, and load of an array of at
    least twelve entries whose first twelve hold no identifier twice, no
    two slots hold items with the same identifier. [loadBuild] itself
    checks nothing: other data can bring in an identifier twice. *)
Theorem performAll_unique_ids (ops : list Operation) :
  Forall checked ops → NoDup (getEquippedItemIds (performAll ops)).
Proof.
  intros Hops. unfold performAll.
  cut (uniqueIds (foldl perform initial ops)); [by intros [_ H]|].
  generalize uniqueIds_initial. generalize initial.
  induction Hops as [|op ops Hop _ IH]; intros b Hb; simpl; [done|].
  apply IH. by apply uniqueIds_perform.
Qed.

Lemma performAll_unique_ids_witness :
  let ops := [Equip 0 (sampleItem "a" 500); Equip 1 (sampleItem "a" 500);
              Equip 1 (sampleItem "b" 800); Unequip 0; Reset;
              Load (Some (getBuildData buildOneItem))] in
  Forall checked ops ∧ NoDup (getEquippedItemIds (performAll ops)).
Proof.
  assert (H : Forall checked
    [Equip 0 (sampleItem "a" 500); Equip 1 (sampleItem "a" 500);
     Equip 1 (sampleItem "b" 800); Unequip 0; Reset;
     Load (Some (getBuildData buildOneItem))]).
  { repeat apply Forall_cons_2; try apply Forall_nil_2; cbn [checked]; try lia; try done.
    split; [simpl; lia|]. exact (NoDup_singleton "a"). }
  split; [exact H|]. exact (performAll_unique_ids _ H).
Defined.

(** * Properties of the stats engine *)

(** ** C6: ability points *)

Section ability_points.

Lemma addCosts_take (i : nat) (rest : list Z) (level total : Z) :
  addCosts i rest level total = total + sumZ (take (Z.to_nat level - i) rest).
Proof.
  revert i total. induction rest as [|c rest IH]; intros i total; simpl.
  - rewrite take_nil. simpl. lia.
  - case_bool_decide as Hlt.
    + rewrite IH.
      replace (Z.to_nat level - i)%nat with (S (Z.to_nat level - S i)) by lia.
      simpl. lia.
    + replace (Z.to_nat level - i)%nat with 0%nat by lia. simpl. lia.
Qed.

Lemma addCosts_levelCost (level total : Z) :
  addCosts 0 costs level total = total + levelCost level.
Proof. rewrite addCosts_take. unfold levelCost. by rewrite Nat.sub_0_r. Qed.

Lemma foldr_levelCost (l : list (string * Z)) :
  foldr (uncurry (λ (_ : string) level total, addCosts 0 costs level total)) 0 l
  = sumZ (levelCost <$> l.*2).
Proof.
  induction l as [|[k level] l IH]; [done|].
  cbn [foldr uncurry]. rewrite addCosts_levelCost, IH.
  rewrite !fmap_cons. unfold sumZ. cbn [foldr snd]. lia.
Qed.

(** The scan over a table whose thresholds increase: it ends on the last
    milestone within reach, or keeps [points] when there is none. *)
Lemma scanMilestones_sorted (ms : list Milestone.t) (totalSouls points : Z) :
  StronglySorted (λ m m', Milestone.souls m < Milestone.souls m') ms →
  ((∀ m, m ∈ ms → totalSouls < Milestone.souls m) ∧
   scanMilestones ms totalSouls points = points)
  ∨ (∃ m, m ∈ ms ∧ Milestone.souls m ≤ totalSouls ∧
          (∀ m', m' ∈ ms → Milestone.souls m' ≤ totalSouls →
                 Milestone.souls m' ≤ Milestone.souls m) ∧
          scanMilestones ms totalSouls points = Milestone.points m).
Proof.
  intros Hsorted. revert points.
  induction Hsorted as [|m ms Hsorted IH Hall]; intros points; simpl.
  - left. split; [|done]. by intros m ?%elem_of_nil.
  - rewrite Forall_forall in Hall. case_bool_decide as Hle.
    + right. destruct (IH (Milestone.points m)) as [[Hnone Heq]|(m2 & Hin & Hle2 & Hmax & Heq)].
      * exists m. split; [by left|]. split; [done|]. split; [|done].
        intros m' [->|Hin]%elem_of_cons Hm'; [lia|].
        specialize (Hnone m' Hin). lia.
      * exists m2. split; [by right|]. split; [done|]. split; [|done].
        intros m' [->|Hin']%elem_of_cons Hm'; [|by apply Hmax].
        specialize (Hall m2 Hin). lia.
    + left. split; [|done].
      intros m' [->|Hin]%elem_of_cons; [lia|].
      specialize (Hall m' Hin). lia.
Qed.

Lemma milestones_sorted :
  StronglySorted (λ m m', Milestone.souls m < Milestone.souls m') milestones.
Proof. unfold milestones. repeat (constructor; [|repeat constructor; simpl; lia]). constructor. Qed.

End ability_points.

(** C6: the points used are the sum, over the abilities, of the first
    [level] entries of the cost list [1; 2; 5], so that level 3 costs 8 and
    level 0 costs 0; and for every non-negative [totalSouls] the points
    available are those of the milestone with the highest threshold not
    above [totalSouls]: 3 at 2500, 2 at 2499, 1 at 0. *)
Theorem ability_points_economy (abilityUpgrades : gmap string Z) (totalSouls : Z) :
  0 ≤ totalSouls →
  calculateAbilityPointsUsed abilityUpgrades
    = sumZ (levelCost <$> (map_to_list abilityUpgrades).*2) ∧
  levelCost 3 = 8 ∧ levelCost 0 = 0 ∧
  calculateAbilityPointsUsed {[ "ability" := 3 ]} = 8 ∧
  calculateAbilityPointsUsed {[ "ability" := 0 ]} = 0 ∧
  (∃ m, highestMilestone m totalSouls ∧
        getAbilityPointsAvailable totalSouls = Milestone.points m) ∧
  getAbilityPointsAvailable 2500 = 3 ∧
  getAbilityPointsAvailable 2499 = 2 ∧
  getAbilityPointsAvailable 0 = 1.
Proof.
  intros Hsouls. split.
  { unfold calculateAbilityPointsUsed. rewrite map_fold_foldr.
    apply (foldr_levelCost (map_to_list abilityUpgrades)). }
  do 4 (split; [reflexivity|]).
  split; [|by repeat split].
  unfold getAbilityPointsAvailable, highestMilestone.
  destruct (scanMilestones_sorted milestones totalSouls 0 milestones_sorted)
    as [[Hnone _]|(m & Hin & Hle & Hmax & Heq)].
  - specialize (Hnone (Milestone.mk 0 1)). simpl in Hnone.
    assert (Milestone.mk 0 1 ∈ milestones) as Hin by (unfold milestones; by left).
    specialize (Hnone Hin). lia.
  - exists m. by rewrite Heq.
Qed.

Lemma ability_points_economy_witness :
  0 ≤ 2500 ∧
  calculateAbilityPointsUsed {[ "dash" := 3; "bomb" := 1 ]}
    = sumZ (levelCost <$> (map_to_list ({[ "dash" := 3; "bomb" := 1 ]} : gmap string Z)).*2).
Proof.
  split; [lia|].
  exact (proj1 (ability_points_economy {[ "dash" := 3; "bomb" := 1 ]} 2500 ltac:(lia))).
Defined.

(** ** C4: investment bonuses *)

Section investment.

Lemma chain_trackBonus (total : Z) (v1 v2 v3 v4 : number) :
  trackBonus [(800, v1); (2400, v2); (5600, v3); (12000, v4)] total
    (if reaches (Some total) 12000 then v4
     else if reaches (Some total) 5600 then v3
     else if reaches (Some total) 2400 then v2
     else if reaches (Some total) 800 then v1
     else Number.zero).
Proof.
  assert (Hin : ∀ x, x = 800 ∨ x = 2400 ∨ x = 5600 ∨ x = 12000 → x ∈ breakpoints).
  { intros x. unfold breakpoints. rewrite !elem_of_cons. tauto. }
  unfold reaches. split.
  - intros Hlow. by rewrite !bool_decide_eq_false_2 by lia.
  - intros bp magnitude Hentry (_ & Hle & Hmax).
    pose proof (Hmax 800 (Hin 800 ltac:(tauto))) as H800.
    pose proof (Hmax 2400 (Hin 2400 ltac:(tauto))) as H2400.
    pose proof (Hmax 5600 (Hin 5600 ltac:(tauto))) as H5600.
    pose proof (Hmax 12000 (Hin 12000 ltac:(tauto))) as H12000.
    rewrite !elem_of_cons, elem_of_nil in Hentry.
    repeat case_bool_decide;
      destruct Hentry as [[= -> ->]|[[= -> ->]|[[= -> ->]|[[= -> ->]|[]]]]];
      first [reflexivity | lia].
Qed.

End investment.

(** C4: for every mapping of per-category soul spend, the bonus of each
    track is the magnitude at the highest breakpoint of 800, 2400, 5600,
    12000 that the category's total reaches, and 0 below 800. A weapon
    spend of 800 gives 0.04, 799 gives 0, 12000 and 50000 give 0.28. *)
Theorem calculateInvestmentBonuses_tiers (totals : gmap string Z) (weapon vitality spirit : Z) :
  totals !! "weapon" = Some weapon →
  totals !! "vitality" = Some vitality →
  totals !! "spirit" = Some spirit →
  trackBonus weaponTrack weapon (weapon_weaponDamage (calculateInvestmentBonuses totals)) ∧
  trackBonus vitalityTrack vitality (vitality_health (calculateInvestmentBonuses totals)) ∧
  trackBonus spiritTrack spirit (spirit_spiritPower (calculateInvestmentBonuses totals)) ∧
  weapon_weaponDamage (calculateInvestmentBonuses {[ "weapon" := 800 ]}) = Number.of_frac 4 100 ∧
  weapon_weaponDamage (calculateInvestmentBonuses {[ "weapon" := 799 ]}) = Number.zero ∧
  weapon_weaponDamage (calculateInvestmentBonuses {[ "weapon" := 12000 ]}) = Number.of_frac 28 100 ∧
  weapon_weaponDamage (calculateInvestmentBonuses {[ "weapon" := 50000 ]}) = Number.of_frac 28 100.
Proof.
  intros Hw Hv Hs. unfold calculateInvestmentBonuses. simpl.
  rewrite Hw, Hv, Hs.
  split; [apply chain_trackBonus|].
  split; [apply chain_trackBonus|].
  split; [apply chain_trackBonus|].
  by repeat split.
Qed.

Lemma calculateInvestmentBonuses_tiers_witness :
  let totals : gmap string Z := {[ "weapon" := 2400; "vitality" := 0; "spirit" := 6000 ]} in
  totals !! "weapon" = Some 2400 ∧
  totals !! "vitality" = Some 0 ∧
  totals !! "spirit" = Some 6000 ∧
  trackBonus weaponTrack 2400 (weapon_weaponDamage (calculateInvestmentBonuses totals)).
Proof.
  split; [reflexivity|]. split; [reflexivity|]. split; [reflexivity|].
  exact (proj1 (calculateInvestmentBonuses_tiers
                  {[ "weapon" := 2400; "vitality" := 0; "spirit" := 6000 ]}
                  2400 0 6000 eq_refl eq_refl eq_refl)).
Defined.

(** ** C7 and C10: [calculateStats] *)

Section calculate_stats.

Lemma add_zero_r (x : number) : Number.add x Number.zero = x.
Proof.
  destruct x as [q| | |]; simpl; try done.
  f_equal. assert (Qc_of_Z 0 = 0%Qc) as -> by (by apply Qc_is_canon).
  apply Qcplus_0_r.
Qed.

Lemma or_default_zero : Number.or_default (Some Number.zero) Number.zero = Number.zero.
Proof. reflexivity. Qed.

(** Null entries leave the two accumulators as they are. *)
Lemma foldl_applyItem_filter (items : list (option Item)) acc :
  foldl applyItem acc items = foldl applyItem acc (filter is_Some items).
Proof.
  revert acc. induction items as [|[item|] items IH]; intros acc; [done| |].
  - rewrite filter_cons_True by (by eexists). simpl. apply IH.
  - rewrite filter_cons_False by (by intros [? ?]). simpl. apply IH.
Qed.

Lemma foldl_cost_filter (items : list (option Item)) (sum : Z) :
  foldl (λ sum item, sum + from_option Item.cost 0 item) sum items
  = foldl (λ sum item, sum + from_option Item.cost 0 item) sum (filter is_Some items).
Proof.
  revert sum. induction items as [|[item|] items IH]; intros sum; [done| |].
  - rewrite filter_cons_True by (by eexists). simpl. apply IH.
  - rewrite filter_cons_False by (by intros [? ?]). simpl.
    rewrite Z.add_0_r. apply IH.
Qed.

End calculate_stats.

(** C7, as stated, fails: a character whose base stamina is 0 gets stamina
    3 from [calculateStats], with no item and no upgrade; and a character
    without a base stamina gets the stat added, with the value 3. *)
Lemma calculateStats_replaces_zero_stamina :
  Hero.baseStats heroZeroStamina !! "stamina" = Some Number.zero ∧
  values (calculateStats heroZeroStamina [] ∅) !! "stamina" = Some (Number.of_Z 3) ∧
  values (calculateStats heroZeroStamina [] ∅) !! "stamina"
    ≠ Hero.baseStats heroZeroStamina !! "stamina" ∧
  Hero.baseStats heroNoStamina !! "stamina" = None ∧
  values (calculateStats heroNoStamina [] ∅) !! "stamina" = Some (Number.of_Z 3).
Proof. repeat split; vm_compute; first [reflexivity | discriminate]. Qed.

Section calculate_stats_blocks.
Implicit Types (stats : gmap string number) (k : string).

Lemma initializeStats_accumulator baseStats k :
  k ∈ derivedAccumulators → initializeStats baseStats !! k = Some Number.zero.
Proof.
  unfold derivedAccumulators. rewrite !elem_of_cons, elem_of_nil.
  unfold initializeStats. cbv zeta.
  intros [->|[->|[->|[->|[->|[->|[->|[->|[->|[]]]]]]]]]]; by simplify_map_eq.
Qed.

Lemma initializeStats_stamina baseStats :
  initializeStats baseStats !! "stamina"
  = Some (Number.or_default (baseStats !! "stamina") (Number.of_Z 3)).
Proof. unfold initializeStats. cbv zeta. by simplify_map_eq. Qed.

Lemma initializeStats_other baseStats k :
  k ∉ derivedAccumulators → k ≠ "stamina" →
  initializeStats baseStats !! k = baseStats !! k.
Proof.
  unfold derivedAccumulators. rewrite !not_elem_of_cons.
  intros (? & ? & ? & ? & ? & ? & ? & ? & ? & _) ?.
  unfold initializeStats. cbv zeta. by rewrite !lookup_insert_ne by done.
Qed.

Lemma applyInvestmentBonuses_other bonuses stats k :
  k ≠ "investmentBonuses" → k ≠ "weaponDamage" → k ≠ "health" → k ≠ "spiritPower" →
  applyInvestmentBonuses bonuses stats !! k = stats !! k.
Proof.
  intros. unfold applyInvestmentBonuses. cbv zeta.
  rewrite !lookup_insert_ne by done. by rewrite lookup_delete_ne.
Qed.

Lemma applyInvestmentBonuses_weaponDamage bonuses stats :
  applyInvestmentBonuses bonuses stats !! "weaponDamage"
  = Some (Number.add (prop stats "weaponDamage")
            (Number.or_default (Some (weapon_weaponDamage bonuses)) Number.zero)).
Proof.
  unfold applyInvestmentBonuses, prop. cbv zeta.
  rewrite !lookup_insert_ne by done. rewrite lookup_insert_eq.
  by rewrite lookup_delete_ne.
Qed.

Lemma applyInvestmentBonuses_health bonuses stats :
  applyInvestmentBonuses bonuses stats !! "health"
  = Some (Number.add (prop stats "health")
            (Number.or_default (Some (vitality_health bonuses)) Number.zero)).
Proof.
  unfold applyInvestmentBonuses, prop. cbv zeta.
  rewrite lookup_insert_ne by done. rewrite lookup_insert_eq.
  rewrite lookup_insert_ne by done. by rewrite lookup_delete_ne.
Qed.

Lemma applyInvestmentBonuses_spiritPower bonuses stats :
  applyInvestmentBonuses bonuses stats !! "spiritPower"
  = Some (Number.add (prop stats "spiritPower")
            (Number.or_default (Some (spirit_spiritPower bonuses)) Number.zero)).
Proof.
  unfold applyInvestmentBonuses, prop. cbv zeta.
  rewrite lookup_insert_eq.
  rewrite !lookup_insert_ne by done. by rewrite lookup_delete_ne.
Qed.

Lemma deriveCombatStats_other stats k :
  k ∉ ["effectiveBulletDamage"; "dps"; "burstDamage"; "effectiveHealth";
       "effectiveHealthSpirit"] →
  deriveCombatStats stats !! k = stats !! k.
Proof.
  rewrite !not_elem_of_cons. intros (? & ? & ? & ? & ? & _).
  unfold deriveCombatStats. cbv zeta. by rewrite !lookup_insert_ne by done.
Qed.

Lemma calculateInvestmentBonuses_zero :
  calculateInvestmentBonuses {[ "weapon" := 0; "vitality" := 0; "spirit" := 0 ]}
  = mkInvestmentBonuses Number.zero Number.zero Number.zero.
Proof. reflexivity. Qed.

(** The value of a property that [calculateStats] does not compute at
    the end, with no item equipped. *)
Lemma calculateStats_no_items_lookup (hero : Hero.t) abilityUpgrades k :
  k ∉ ["effectiveBulletDamage"; "dps"; "burstDamage"; "effectiveHealth";
       "effectiveHealthSpirit"] →
  k ≠ "totalSouls" →
  values (calculateStats hero [] abilityUpgrades) !! k
  = applyInvestmentBonuses (mkInvestmentBonuses Number.zero Number.zero Number.zero)
      (initializeStats (Hero.baseStats hero)) !! k.
Proof.
  intros Hk Hsouls. unfold calculateStats. cbn [foldl values].
  rewrite calculateInvestmentBonuses_zero.
  rewrite lookup_insert_ne by done. by rewrite deriveCombatStats_other.
Qed.
End calculate_stats_blocks.

Ltac key_cases H :=
  unfold derivedAccumulators, baseStatNames in H;
  rewrite !elem_of_cons, elem_of_nil in H;
  repeat (destruct H as [->|H]); [..|destruct H].

Ltac solve_key :=
  lazymatch goal with
  | |- _ ∉ _ =>
      unfold derivedAccumulators; rewrite !not_elem_of_cons;
      repeat split; first [done | apply not_elem_of_nil]
  | |- _ ∈ _ => unfold derivedAccumulators; rewrite !elem_of_cons; tauto
  | |- _ => done
  end.

Ltac add_zero_bonus :=
  unfold prop; cbn [weapon_weaponDamage vitality_health spirit_spiritPower];
  simpl Number.of_property; by rewrite or_default_zero, add_zero_r.

(** C7, amended: with no item, whatever the ability upgrades,
    [calculateStats] returns the nine accumulator fields at zero,
    [totalSouls = 0], every base stat other than stamina as the character
    has it, and for stamina the character's value when that is set and not
    zero, and 3 otherwise. *)
Theorem calculateStats_no_items (hero : Hero.t) (abilityUpgrades : gmap string Z) :
  let result := values (calculateStats hero [] abilityUpgrades) in
  (∀ k, k ∈ derivedAccumulators → result !! k = Some Number.zero) ∧
  result !! "totalSouls" = Some Number.zero ∧
  (∀ k v, k ∈ baseStatNames → k ≠ "stamina" →
          Hero.baseStats hero !! k = Some v → result !! k = Some v) ∧
  result !! "stamina"
    = Some (Number.or_default (Hero.baseStats hero !! "stamina") (Number.of_Z 3)).
Proof.
  cbv zeta. split; [|split; [|split]].
  - intros k Hk. key_cases Hk;
      rewrite calculateStats_no_items_lookup by solve_key;
      first
        [ rewrite applyInvestmentBonuses_other by solve_key;
          apply initializeStats_accumulator; solve_key
        | rewrite applyInvestmentBonuses_weaponDamage; unfold prop;
          rewrite initializeStats_accumulator by solve_key; add_zero_bonus
        | rewrite applyInvestmentBonuses_spiritPower; unfold prop;
          rewrite initializeStats_accumulator by solve_key; add_zero_bonus ].
  - unfold calculateStats. cbn [foldl values]. by rewrite lookup_insert_eq.
  - intros k v Hk Hne Hbase. key_cases Hk; try done;
      rewrite calculateStats_no_items_lookup by solve_key;
      first
        [ rewrite applyInvestmentBonuses_other by solve_key;
          by rewrite initializeStats_other by solve_key
        | rewrite applyInvestmentBonuses_health; unfold prop;
          rewrite initializeStats_other, Hbase by solve_key; add_zero_bonus ].
  - rewrite calculateStats_no_items_lookup by solve_key.
    rewrite applyInvestmentBonuses_other by solve_key.
    apply initializeStats_stamina.
Qed.

Lemma calculateStats_no_items_witness :
  "health" ∈ baseStatNames ∧
  Hero.baseStats heroZeroStamina !! "health" = Some (Number.of_Z 600) ∧
  values (calculateStats heroZeroStamina [] ∅) !! "health" = Some (Number.of_Z 600).
Proof.
  assert (Hin : "health" ∈ baseStatNames) by apply list_elem_of_here.
  assert (Hbase : Hero.baseStats heroZeroStamina !! "health" = Some (Number.of_Z 600))
    by reflexivity.
  split; [exact Hin|]. split; [exact Hbase|].
  destruct (calculateStats_no_items heroZeroStamina ∅) as (_ & _ & Hkeep & _).
  apply (Hkeep "health" (Number.of_Z 600) Hin); [discriminate|exact Hbase].
Defined.

(** C10: null entries in the item list change nothing: [calculateStats]
    returns the same result on the list with the null entries removed. *)
Theorem calculateStats_ignores_null (hero : Hero.t) (items : list (option Item))
    (abilityUpgrades : gmap string Z) :
  calculateStats hero items abilityUpgrades
  = calculateStats hero (filter is_Some items) abilityUpgrades.
Proof.
  unfold calculateStats.
  by rewrite <- foldl_applyItem_filter, <- foldl_cost_filter.
Qed.

(** ** C5: ability damage *)

Section pattern.
Implicit Types (s text digits ws kw rest : list ascii) (c : ascii).














End pattern.

Section upgrade_tiers.
Implicit Types (us : list Upgrade.t) (level : Z).

(** The tiers that the three tests of [calculateAbilityDamage] let
    through are the first [level] of the first three upgrades. *)
Lemma tiers_take us level :
  (if bool_decide (1 ≤ level) then option_list (us !! 0%nat) else [])
  ++ (if bool_decide (2 ≤ level) then option_list (us !! 1%nat) else [])
  ++ (if bool_decide (3 ≤ level) then option_list (us !! 2%nat) else [])
  = take (Z.to_nat level) (take 3 us).
Proof.
  destruct (Z.to_nat level) as [|[|[|n]]] eqn:Hn;
    repeat case_bool_decide; try lia;
    destruct us as [|u0 [|u1 [|u2 rest]]]; simpl; by rewrite ?take_0, ?take_nil.
Qed.

Lemma sumZ_app (l1 l2 : list Z) : sumZ (l1 ++ l2) = sumZ l1 + sumZ l2.
Proof. unfold sumZ. induction l1 as [|x l1 IH]; simpl; lia. Qed.

End upgrade_tiers.





(** * Further checks of the embedding on the specification's examples *)

Ltac by_evaluation := apply (bool_decide_unpack _); vm_compute; exact I.

Example effectiveHealth_half :
  calculateEffectiveHealth (Number.of_Z 100) (Number.of_frac 1 2) = Number.of_Z 200.
Proof. by_evaluation. Qed.

Example effectiveHealth_full_resist :
  calculateEffectiveHealth (Number.of_Z 100) (Number.of_Z 1) = PosInf.
Proof. reflexivity. Qed.

Example effectiveHealth_no_resist :
  calculateEffectiveHealth (Number.of_Z 100) (Number.of_Z 0) = Number.of_Z 100.
Proof. by_evaluation. Qed.

Example getTotalSouls_initial : getTotalSouls initial = 0.
Proof. reflexivity. Qed.

(** [totalSouls] is the sum of the costs over the occupied slots. *)
Lemma getTotalSouls_sum (b : HeroBuild) :
  getTotalSouls b = sumZ (Item.cost <$> omap id (slots b)).
Proof.
  unfold getTotalSouls, sumZ. generalize (omap id (slots b)). intros l.
  induction l as [|it l IH]; [done|].
  cbn [foldl]. rewrite foldl_cost_shift, IH. rewrite fmap_cons. cbn [foldr]. lia.
Qed.

(** The old format: the groups are read in the order weapon, vitality,
    spirit, flex; a null entry leaves its slot as it is but still counts. *)
Example loadBuild_legacy :
  (loadBuild
     (Some (BuildData.mk (Some (SlotsByCategory
        {[ "flex" := [Some (sampleItem "c" 3000)];
           "weapon" := [Some (sampleItem "a" 500); None] ]}))))
     initial).1
  = mkHeroBuild
      (Some (sampleItem "a" 500) :: None :: Some (sampleItem "c" 3000) :: replicate 9 None).
Proof. reflexivity. Qed.

Example regex_match_examples :
  regex_match (chars "Deals +8 Damage") = Some (chars "8") ∧
  regex_match (chars "+12dps, then +5 Damage") = Some (chars "12") ∧
  regex_match (chars "+15 Bonus Range and +20 DAMAGE") = Some (chars "20") ∧
  regex_match (chars "+8% Damage") = None ∧
  regex_match (chars "-2s Cooldown") = None.
Proof. repeat split; reflexivity. Qed.

Example calculateAbilityDamage_all_tiers :
  calculateAbilityDamage exampleAbility (Number.of_Z 20) 3
  = Some {| base := Number.of_Z 50; spiritBonus := Number.of_Z 10;
            upgradeBonus := 48; total := Number.of_Z 108 |}.
Proof. reflexivity. Qed.

(** [x || 0] is [x] itself unless [x] is NaN: a coefficient that is absent
    counts as 0, and a coefficient of 0 is 0. *)
Lemma or_default_absent (x : option number) :
  x ≠ Some NaN → Number.or_default x Number.zero = default Number.zero x.
Proof.
  destruct x as [[q| | |]|]; simpl; try done.
  intros _. case_bool_decide as Hq; simpl; [|done].
  subst q. unfold Number.zero, Number.of_Z. f_equal. by apply Qc_is_canon.
Qed.

(** * Further properties of the build state *)

Section build_accounting.
Implicit Types (b : HeroBuild) (item : Item) (a : list (option Item)).

(** An assignment replaces, in the sequence of held items, what the slot
    held by what it holds now. *)
Lemma array_set_omap_at a i v :
  ∃ l1 l2,
    omap id a = l1 ++ option_list (a !! i ≫= id) ++ l2 ∧
    omap id (array_set a i v) = l1 ++ option_list v ++ l2.
Proof.
  unfold array_set. case_decide as Hi.
  - destruct (lookup_lt_is_Some_2 a i Hi) as [x Hx].
    exists (omap id (take i a)), (omap id (drop (S i) a)). rewrite Hx. split.
    + rewrite <- (take_drop_middle a i x Hx) at 1.
      rewrite omap_app. simpl. by destruct x.
    + rewrite insert_take_drop by done.
      rewrite omap_app. simpl. by destruct v.
  - exists (omap id a), []. rewrite (lookup_ge_None_2 a i) by lia. split.
    + simpl. by rewrite app_nil_r.
    + rewrite !omap_app. rewrite app_nil_r.
      f_equal. replace (omap id (replicate (i - length a) None)) with (@nil Item).
      * by destruct v.
      * induction (i - length a)%nat; [done|]. simpl. done.
Qed.

Lemma slotAt_join b i : slotAt b i = slots b !! i ≫= id.
Proof. unfold slotAt. by destruct (slots b !! i) as [[?|]|]. Qed.

Lemma foldl_cost_app (l1 l2 : list Item) :
  foldl (λ sum it, sum + Item.cost it) 0 (l1 ++ l2)
  = foldl (λ sum it, sum + Item.cost it) 0 l1
    + foldl (λ sum it, sum + Item.cost it) 0 l2.
Proof. rewrite foldl_app. by rewrite foldl_cost_shift. Qed.

Lemma foldl_cost_option (o : option Item) :
  foldl (λ sum it, sum + Item.cost it) 0 (option_list o) = costOf o.
Proof. by destruct o. Qed.

Lemma getTotalSouls_assign b i v :
  getTotalSouls (mkHeroBuild (array_set (slots b) i v))
  = getTotalSouls b - costOf (slotAt b i) + costOf v.
Proof.
  unfold getTotalSouls. simpl.
  destruct (array_set_omap_at (slots b) i v) as (l1 & l2 & -> & ->).
  rewrite <- slotAt_join, !foldl_cost_app, !foldl_cost_option. lia.
Qed.
End build_accounting.

(** X1: the identifiers that [getEquippedItemIds] lists are exactly those
    for which [hasItem] answers true. *)
Theorem hasItem_iff_getEquippedItemIds (b : HeroBuild) (itemId : string) :
  hasItem b itemId = true ↔ itemId ∈ getEquippedItemIds b.
Proof. apply hasItem_idsOf. Qed.



(** X3: a successful equip changes the total souls by the cost of the new
    item less the cost of the item it overwrote, if any. *)
Theorem setItem_total_souls (b : HeroBuild) (index : nat) (item : Item) :
  isSlotLocked b index = false →
  hasItem b (Item.id item) = false →
  getTotalSouls (setItem index item b).1
  = getTotalSouls b - costOf (slotAt b index) + Item.cost item.
Proof.
  intros Hlock Hfresh. rewrite setItem_fresh by done. simpl.
  apply (getTotalSouls_assign b index (Some item)).
Qed.

Lemma setItem_total_souls_witness :
  isSlotLocked buildOneItem 0 = false ∧
  hasItem buildOneItem (Item.id (sampleItem "b" 800)) = false ∧
  getTotalSouls (setItem 0 (sampleItem "b" 800) buildOneItem).1
  = getTotalSouls buildOneItem - costOf (slotAt buildOneItem 0) + 800.
Proof.
  split; [reflexivity|]. split; [reflexivity|].
  exact (setItem_total_souls buildOneItem 0 (sampleItem "b" 800) eq_refl eq_refl).
Defined.

(** X4: [removeItem] asks nothing about locks: it empties the slot, leaves
    every other slot as it was, lowers the total souls by the cost of the
    item removed, and returns normally for an index in 0..11. *)
Theorem removeItem_effect (b : HeroBuild) (index : nat) :
  slotAt (removeItem index b).1 index = None ∧
  (∀ j, j ≠ index → slotAt (removeItem index b).1 j = slotAt b j) ∧
  getTotalSouls (removeItem index b).1 = getTotalSouls b - costOf (slotAt b index) ∧
  ((index < 12)%nat → (removeItem index b).2 = Returned tt).
Proof.
  rewrite removeItem_run. simpl. split; [|split; [|split]].
  - apply slotAt_assign_eq.
  - intros j Hj. by apply slotAt_assign_ne.
  - rewrite getTotalSouls_assign. simpl. lia.
  - intros Hi. by rewrite decide_True.
Qed.

Lemma removeItem_effect_witness :
  (0 < 12)%nat ∧ (removeItem 0 buildOneItem).2 = Returned tt.
Proof.
  assert (H : (0 < 12)%nat) by lia.
  split; [exact H|].
  exact (proj2 (proj2 (proj2 (removeItem_effect buildOneItem 0))) H).
Defined.

(** X5: equip into an empty slot followed by unequip of that slot gives
    the build back. *)
Theorem removeItem_setItem (b : HeroBuild) (index : nat) (item : Item) :
  (index < 12)%nat →
  slots b !! index = Some None →
  isSlotLocked b index = false →
  hasItem b (Item.id item) = false →
  setItem index item b
    = (mkHeroBuild (<[index := Some item]> (slots b)), Returned Success) ∧
  removeItem index (setItem index item b).1 = (b, Returned tt).
Proof.
  intros Hi Hempty Hlock Hfresh.
  assert (Hlen : (index < length (slots b))%nat) by (by eapply lookup_lt_Some).
  rewrite setItem_fresh by done. rewrite decide_True by done.
  unfold array_set at 1 2. rewrite !decide_True by done. split; [done|].
  rewrite removeItem_run. cbn [fst slots]. rewrite decide_True by done.
  f_equal. unfold array_set. rewrite decide_True by (by rewrite length_insert).
  rewrite list_insert_insert_eq. rewrite list_insert_id by done. by destruct b.
Qed.

Lemma removeItem_setItem_witness :
  (1 < 12)%nat ∧
  slots buildOneItem !! 1%nat = Some None ∧
  isSlotLocked buildOneItem 1 = false ∧
  hasItem buildOneItem (Item.id (sampleItem "b" 800)) = false ∧
  removeItem 1 (setItem 1 (sampleItem "b" 800) buildOneItem).1
  = (buildOneItem, Returned tt).
Proof.
  split; [lia|]. split; [reflexivity|]. split; [reflexivity|]. split; [reflexivity|].
  exact (proj2 (removeItem_setItem buildOneItem 1 (sampleItem "b" 800)
                  ltac:(lia) eq_refl eq_refl eq_refl)).
Defined.

(** X6: the count of [getUnlockedSlotCount] and the test of [isSlotLocked]
    agree on the slots 9 to 11 for every build, and on every slot when the
    total souls are not negative: slot [i] is not locked iff [i] is below
    the count. The count is always between 9 and 12. *)
Theorem getUnlockedSlotCount_isSlotLocked (b : HeroBuild) (i : nat) :
  (i < 12)%nat →
  (9 ≤ i)%nat ∨ 0 ≤ getTotalSouls b →
  (isSlotLocked b i = false ↔ (i < getUnlockedSlotCount b)%nat) ∧
  (9 ≤ getUnlockedSlotCount b ≤ 12)%nat.
Proof.
  intros Hi Hcase. unfold isSlotLocked, getUnlockedSlotCount.
  do 12 (destruct i as [|i]; [cbn [lookup list_lookup unlockThresholds];
    rewrite bool_decide_eq_false; repeat case_bool_decide; lia|]).
  lia.
Qed.

Lemma getUnlockedSlotCount_isSlotLocked_witness :
  (9 < 12)%nat ∧ ((9 ≤ 9)%nat ∨ 0 ≤ getTotalSouls buildOneItem) ∧
  (isSlotLocked buildOneItem 9 = false ↔ (9 < getUnlockedSlotCount buildOneItem)%nat).
Proof.
  assert (H1 : (9 < 12)%nat) by lia.
  assert (H2 : (9 ≤ 9)%nat ∨ 0 ≤ getTotalSouls buildOneItem) by (left; lia).
  split; [exact H1|]. split; [exact H2|].
  exact (proj1 (getUnlockedSlotCount_isSlotLocked buildOneItem 9 H1 H2)).
Defined.

Section investment_by_category.
Implicit Types (b : HeroBuild) (investment : gmap string Z).

(** The spend over the three tracks together. *)
Lemma addInvestment_tracks investment (slot : option Item) :
  (∀ it, slot = Some it →
         Item.category it ∈ [Some "weapon"; Some "vitality"; Some "spirit"]) →
  spend (addInvestment investment slot) "weapon"
  + spend (addInvestment investment slot) "vitality"
  + spend (addInvestment investment slot) "spirit"
  = spend investment "weapon" + spend investment "vitality"
    + spend investment "spirit" + costOf slot.
Proof.
  intros Hcat. destruct slot as [it|]; simpl; [|lia].
  specialize (Hcat it eq_refl). rewrite !elem_of_cons, elem_of_nil in Hcat.
  unfold spend.
  destruct Hcat as [->|[->|[->|[]]]]; rewrite bool_decide_eq_false_2 by done;
    rewrite ?lookup_insert_eq, ?lookup_insert_ne by done; simpl; lia.
Qed.

Lemma foldl_addInvestment_tracks investment (l : list (option Item)) :
  Forall (λ slot, ∀ it, slot = Some it →
            Item.category it ∈ [Some "weapon"; Some "vitality"; Some "spirit"]) l →
  spend (foldl addInvestment investment l) "weapon"
  + spend (foldl addInvestment investment l) "vitality"
  + spend (foldl addInvestment investment l) "spirit"
  = spend investment "weapon" + spend investment "vitality"
    + spend investment "spirit"
    + foldl (λ sum it, sum + Item.cost it) 0 (omap id l).
Proof.
  intros Hall. revert investment.
  induction Hall as [|slot l Hslot _ IH]; intros investment; [simpl; lia|].
  cbn [foldl]. rewrite IH, (addInvestment_tracks investment slot Hslot).
  destruct slot as [it|]; cbn [omap list_omap id foldl costOf from_option].
  - rewrite (foldl_cost_shift _ (0 + Item.cost it)). lia.
  - lia.
Qed.

Lemma foldl_applyItem_totals (items : list (option Item)) acc :
  (foldl applyItem acc items).1 = foldl addInvestment acc.1 items.
Proof.
  revert acc. induction items as [|item items IH]; intros acc; [done|].
  cbn [foldl]. rewrite IH. f_equal. by destruct item.
Qed.

Lemma foldl_addInvestment_not_null investment (l : list (option Item)) :
  foldl addInvestment investment (filter (λ item, item ≠ None) l)
  = foldl addInvestment investment l.
Proof.
  revert investment. induction l as [|[it|] l IH]; intros investment; [done| |].
  - rewrite filter_cons_True by done. cbn [foldl]. apply IH.
  - rewrite filter_cons_False by (by intros ?). cbn [foldl]. apply IH.
Qed.

Lemma foldl_cost_not_null (l : list (option Item)) (sum : Z) :
  foldl (λ sum item, sum + from_option Item.cost 0 item) sum
        (filter (λ item, item ≠ None) l)
  = foldl (λ sum it, sum + Item.cost it) sum (omap id l).
Proof.
  revert sum. induction l as [|[it|] l IH]; intros sum; [done| |].
  - rewrite filter_cons_True by done. cbn [foldl omap list_omap id]. apply IH.
  - rewrite filter_cons_False by (by intros ?). apply IH.
Qed.
End investment_by_category.

(** X7: when every equipped item is of one of the three categories, the
    spends that [getInvestmentByCategory] gives for weapon, vitality and
    spirit add up to the total souls of the build. *)
Theorem getInvestmentByCategory_total (b : HeroBuild) :
  Forall (λ slot, ∀ it, slot = Some it →
            Item.category it ∈ [Some "weapon"; Some "vitality"; Some "spirit"])
         (slots b) →
  spend (getInvestmentByCategory b) "weapon"
  + spend (getInvestmentByCategory b) "vitality"
  + spend (getInvestmentByCategory b) "spirit"
  = getTotalSouls b.
Proof.
  intros Hall. unfold getInvestmentByCategory.
  rewrite (foldl_addInvestment_tracks _ _ Hall). unfold getTotalSouls.
  by vm_compute.
Qed.

Lemma getInvestmentByCategory_total_witness :
  Forall (λ slot, ∀ it, slot = Some it →
            Item.category it ∈ [Some "weapon"; Some "vitality"; Some "spirit"])
         (slots buildOneItem) ∧
  spend (getInvestmentByCategory buildOneItem) "weapon"
  + spend (getInvestmentByCategory buildOneItem) "vitality"
  + spend (getInvestmentByCategory buildOneItem) "spirit"
  = getTotalSouls buildOneItem.
Proof.
  assert (H : Forall (λ slot, ∀ it, slot = Some it →
            Item.category it ∈ [Some "weapon"; Some "vitality"; Some "spirit"])
         (slots buildOneItem)).
  { repeat apply Forall_cons_2; try apply Forall_nil_2; intros it [= <-].
    apply list_elem_of_here. }
  split; [exact H|]. exact (getInvestmentByCategory_total buildOneItem H).
Defined.

(** X8: the stats that [recalculateStats] computes for a build agree with
    the build's own accounts: the investment bonuses are those of
    [getInvestmentByCategory], and [totalSouls] is [getTotalSouls]. *)
Theorem recalculateStats_agrees (hero : Hero.t) (b : HeroBuild)
    (abilityUpgrades : gmap string Z) :
  ∃ stats,
    recalculateStats (Some hero) b abilityUpgrades = Some stats ∧
    investmentBonuses stats = calculateInvestmentBonuses (getInvestmentByCategory b) ∧
    values stats !! "totalSouls" = Some (Number.of_Z (getTotalSouls b)).
Proof.
  eexists. split; [reflexivity|]. unfold calculateStats, getAllItems.
  pose proof (foldl_applyItem_totals (filter (λ item, item ≠ None) (slots b))
    ({[ "weapon" := 0; "vitality" := 0; "spirit" := 0 ]},
     initializeStats (Hero.baseStats hero))) as Htotals.
  destruct (foldl applyItem _ _) as [investmentTotals stats].
  cbn [fst] in Htotals. rewrite foldl_addInvestment_not_null in Htotals.
  cbn [investmentBonuses values]. split.
  - by rewrite Htotals.
  - rewrite lookup_insert_eq. by rewrite foldl_cost_not_null.
Qed.

Section load_formats.
Implicit Types (b : HeroBuild) (a items : list (option Item)).

Lemma foldM_app {A S : Type} (f : S → A → M S) (s : S) (l1 l2 : list A) b :
  foldM f s (l1 ++ l2) b
  = match foldM f s l1 b with
    | (b', Returned s') => foldM f s' l2 b'
    | (b', TypeError) => (b', TypeError)
    end.
Proof.
  revert s b. induction l1 as [|x l1 IH]; intros s b; [done|].
  cbn [app foldM]. unfold mbind, M_bind.
  destruct (f s x b) as [b1 [s1|]]; [apply IH|done].
Qed.

(** One group of the old format, read from the slot index [s] on: an entry
    that holds an item is written into its slot, if that is below 12; a
    null entry is passed over; the index moves on by one either way. *)
Lemma foldM_legacy_group items (s : nat) a :
  length a = 12%nat →
  ∃ a',
    foldM loadLegacySlot s items (mkHeroBuild a)
    = (mkHeroBuild a', Returned (s + length items)%nat) ∧
    length a' = 12%nat ∧
    ∀ j, (j < 12)%nat →
         a' !! j = match (if decide (s ≤ j)%nat then items !! (j - s)%nat else None) with
                   | Some (Some it) => Some (Some it)
                   | _ => a !! j
                   end.
Proof.
  revert s a. induction items as [|x items IH]; intros s a Hlen.
  - exists a. split; [|split; [done|]].
    + cbn [foldM length]. unfold_M. by rewrite Nat.add_0_r.
    + intros j Hj. case_decide; by rewrite ?lookup_nil.
  - set (a1 := if bool_decide (s < 12)%nat && bool_decide (is_Some x)
               then <[s := x]> a else a).
    assert (Hlen1 : length a1 = 12%nat).
    { unfold a1. destruct (_ && _); by rewrite ?length_insert. }
    destruct (IH (S s) a1 Hlen1) as (a' & Hrun & Hlen' & Hlook).
    exists a'. split; [|split; [done|]].
    + cbn [foldM length]. unfold mbind at 1. unfold M_bind at 1.
      assert (Hstep : loadLegacySlot s x (mkHeroBuild a)
                      = (mkHeroBuild a1, Returned (S s))).
      { unfold a1, loadLegacySlot. unfold_M. cbn [slots].
        destruct (bool_decide (s < 12)%nat) eqn:Hs; cbn [andb]; [|done].
        apply bool_decide_eq_true in Hs.
        destruct (bool_decide (is_Some x)); [|done].
        rewrite decide_True by done. unfold array_set. cbn [slots].
        by rewrite decide_True by lia. }
      rewrite Hstep, Hrun. do 2 f_equal. lia.
    + intros j Hj. rewrite (Hlook j Hj).
      destruct (decide (j = s)) as [->|Hne].
      * rewrite decide_False by lia. rewrite decide_True by lia.
        rewrite Nat.sub_diag. cbn [lookup list_lookup].
        unfold a1. rewrite bool_decide_eq_true_2 by done. cbn [andb].
        destruct x as [it|].
        -- rewrite bool_decide_eq_true_2 by (by eexists).
           apply list_lookup_insert_eq. lia.
        -- rewrite bool_decide_eq_false_2; [done|]. by intros [? ?].
      * assert (Ha1 : a1 !! j = a !! j).
        { unfold a1. destruct (_ && _); [|done]. by rewrite list_lookup_insert_ne. }
        rewrite Ha1. destruct (decide (S s ≤ j)%nat) as [Hle|Hle].
        -- rewrite decide_True by lia.
           replace (j - s)%nat with (S (j - S s)) by lia. done.
        -- rewrite decide_False by lia. done.
Qed.

Lemma foldM_groups (groups : gmap string (list (option Item)))
    (categories : list string) (s : nat) b :
  foldM (λ slotIndex category,
           match groups !! category with
           | Some items => foldM loadLegacySlot slotIndex items
           | None => mret slotIndex
           end) s categories b
  = foldM loadLegacySlot s
      (concat ((λ category, default [] (groups !! category)) <$> categories)) b.
Proof.
  revert s b. induction categories as [|c categories IH]; intros s b; [done|].
  rewrite fmap_cons. cbn [foldM concat]. rewrite foldM_app.
  unfold mbind at 1. unfold M_bind at 1.
  destruct (groups !! c) as [items|]; cbn [default from_option id].
  - destruct (foldM loadLegacySlot s items b) as [b1 [s1|]]; [apply IH|done].
  - cbn [foldM]. unfold mret at 1 3. unfold M_ret. apply IH.
Qed.

Lemma loadBuild_legacy_flat (groups : gmap string (list (option Item))) b :
  loadBuild (Some (BuildData.mk (Some (SlotsByCategory groups)))) b
  = match foldM loadLegacySlot 0%nat (flattenGroups groups) b with
    | (b', Returned _) => (b', Returned tt)
    | (b', TypeError) => (b', TypeError)
    end.
Proof.
  cbn [loadBuild mbind option_bind BuildData.slots].
  change (foldM _ 0%nat ["weapon"; "vitality"; "spirit"; "flex"])
    with (foldM (λ slotIndex category,
           match groups !! category with
           | Some items => foldM loadLegacySlot slotIndex items
           | None => mret slotIndex
           end) 0%nat ["weapon"; "vitality"; "spirit"; "flex"]).
  unfold mbind at 1. unfold M_bind at 1. rewrite foldM_groups.
  unfold flattenGroups. cbn [fmap list_fmap concat]. rewrite app_nil_r.
  by destruct (foldM _ _ _ b) as [b' [s'|]].
Qed.
End load_formats.

(** X9: loaded into a build of twelve slots, an array overwrites the slots
    it has entries for, null entries included, ignores its entries past
    the twelfth and leaves the slots past its end as they were; the call
    returns normally. *)
Theorem loadBuild_array_overwrites (items : list (option Item)) (b : HeroBuild) :
  length (slots b) = 12%nat →
  loadBuild (Some (BuildData.mk (Some (SlotsArray items)))) b
  = (mkHeroBuild (take 12 items ++ drop (length items) (slots b)), Returned tt).
Proof.
  intros Hlen. rewrite loadBuild_array. destruct b as [a]. cbn [slots] in *.
  by rewrite forEach_loadSlot.
Qed.

Lemma loadBuild_array_overwrites_witness :
  length (slots buildOneItem) = 12%nat ∧
  loadBuild (Some (BuildData.mk (Some (SlotsArray [None; Some (sampleItem "b" 800)]))))
            buildOneItem
  = (mkHeroBuild (None :: Some (sampleItem "b" 800) :: replicate 10 None), Returned tt).
Proof.
  split; [reflexivity|].
  exact (loadBuild_array_overwrites [None; Some (sampleItem "b" 800)] buildOneItem eq_refl).
Defined.

(** X10: loaded into a build of twelve slots, the old format goes through
    its groups in the order weapon, vitality, spirit, flex and counts the
    entries from 0: entry [j] goes into slot [j] when it holds an item and
    [j] is below 12; a slot whose entry is null or missing keeps what it
    held. The call returns normally and the build keeps twelve slots. *)
Theorem loadBuild_legacy_slots (groups : gmap string (list (option Item)))
    (b : HeroBuild) :
  length (slots b) = 12%nat →
  ∃ b',
    loadBuild (Some (BuildData.mk (Some (SlotsByCategory groups)))) b
      = (b', Returned tt) ∧
    length (slots b') = 12%nat ∧
    ∀ j, (j < 12)%nat →
         slots b' !! j = match flattenGroups groups !! j with
                         | Some (Some it) => Some (Some it)
                         | _ => slots b !! j
                         end.
Proof.
  intros Hlen. destruct b as [a]. cbn [slots] in *.
  destruct (foldM_legacy_group (flattenGroups groups) 0 a Hlen)
    as (a' & Hrun & Hlen' & Hlook).
  exists (mkHeroBuild a'). rewrite loadBuild_legacy_flat, Hrun.
  split; [done|]. split; [done|].
  intros j Hj. cbn [slots]. rewrite (Hlook j Hj).
  rewrite decide_True by lia. by rewrite Nat.sub_0_r.
Qed.

Lemma loadBuild_legacy_slots_witness :
  length (slots buildOneItem) = 12%nat ∧
  ∃ b',
    loadBuild (Some (BuildData.mk (Some (SlotsByCategory
      {[ "spirit" := [None; Some (sampleItem "c" 3000)] ]})))) buildOneItem
      = (b', Returned tt) ∧
    length (slots b') = 12%nat.
Proof.
  split; [reflexivity|].
  destruct (loadBuild_legacy_slots {[ "spirit" := [None; Some (sampleItem "c" 3000)] ]}
              buildOneItem eq_refl) as (b' & Hrun & Hlen & _).
  by exists b'.
Defined.

(** X11: into the empty build, the old format loads as the array of its
    entries flattened in the order weapon, vitality, spirit, flex. *)
Theorem loadBuild_legacy_as_array (groups : gmap string (list (option Item))) :
  loadBuild (Some (BuildData.mk (Some (SlotsByCategory groups)))) initial
  = loadBuild (Some (BuildData.mk (Some (SlotsArray (flattenGroups groups))))) initial.
Proof.
  rewrite loadBuild_array. unfold initial. rewrite forEach_loadSlot by done.
  destruct (foldM_legacy_group (flattenGroups groups) 0 (replicate 12 None) eq_refl)
    as (a' & Hrun & Hlen' & Hlook).
  rewrite loadBuild_legacy_flat, Hrun. do 2 f_equal.
  set (flat := flattenGroups groups) in *.
  apply list_eq. intros j. destruct (decide (j < 12)%nat) as [Hj|Hj].
  - rewrite (Hlook j Hj). rewrite decide_True by lia. rewrite Nat.sub_0_r.
    rewrite take_0, app_nil_l.
    destruct (decide (j < length flat)%nat) as [Hin|Hout].
    + rewrite lookup_app_l by (rewrite length_take; lia).
      rewrite lookup_take_lt by lia.
      destruct (flat !! j) as [[it|]|] eqn:Hflat; [done| |].
      * by rewrite lookup_replicate_2.
      * apply lookup_ge_None in Hflat. lia.
    + rewrite (lookup_ge_None_2 flat j) by lia.
      rewrite lookup_app_r by (rewrite length_take; lia).
      rewrite length_take, lookup_drop, !lookup_replicate_2; [done|lia|lia].
  - rewrite !lookup_ge_None_2; [done| |lia].
    rewrite take_0, app_nil_l, length_app, length_take, length_drop, length_replicate. lia.
Qed.

(** X12: whatever a build of twelve slots holds, [reset] returns normally
    and leaves the build of a fresh object: every slot empty, no souls
    spent, nothing equipped. *)
Theorem reset_clears (b : HeroBuild) :
  length (slots b) = 12%nat →
  reset b = (initial, Returned tt) ∧
  getTotalSouls (reset b).1 = 0 ∧
  getEquippedItemIds (reset b).1 = [] ∧
  ∀ j, slotAt (reset b).1 j = None.
Proof.
  intros Hlen. rewrite reset_twelve by done. repeat split.
  intros j. unfold slotAt, initial. cbn [fst slots].
  destruct (replicate 12 None !! j) as [o|] eqn:Hj; [|done].
  apply lookup_replicate in Hj as [-> _]. done.
Qed.

Lemma reset_clears_witness :
  length (slots buildOneItem) = 12%nat ∧ reset buildOneItem = (initial, Returned tt).
Proof.
  split; [reflexivity|]. exact (proj1 (reset_clears buildOneItem eq_refl)).
Defined.

(** * Further properties of the stats engine and of its callers *)

(** X13: the points available never go down when the souls go up; they lie
    between 0 and 12, are 0 exactly for a negative total and 12 exactly
    from 30000 souls on. *)
Theorem getAbilityPointsAvailable_monotone (totalSouls totalSouls' : Z) :
  totalSouls ≤ totalSouls' →
  getAbilityPointsAvailable totalSouls ≤ getAbilityPointsAvailable totalSouls' ∧
  0 ≤ getAbilityPointsAvailable totalSouls ≤ 12 ∧
  (getAbilityPointsAvailable totalSouls = 0 ↔ totalSouls < 0) ∧
  (getAbilityPointsAvailable totalSouls = 12 ↔ 30000 ≤ totalSouls).
Proof.
  intros Hle. unfold getAbilityPointsAvailable, milestones.
  cbn [scanMilestones Milestone.souls Milestone.points].
  repeat case_bool_decide; lia.
Qed.

Lemma getAbilityPointsAvailable_monotone_witness :
  2499 ≤ 2500 ∧ getAbilityPointsAvailable 2499 ≤ getAbilityPointsAvailable 2500.
Proof.
  assert (H : 2499 ≤ 2500) by lia.
  split; [exact H|]. exact (proj1 (getAbilityPointsAvailable_monotone 2499 2500 H)).
Defined.

Section points_used.
Implicit Types (upgrades : gmap string Z) (level : Z).

Lemma levelCost_cases level :
  (level ≤ 0 ∧ levelCost level = 0) ∨ (level = 1 ∧ levelCost level = 1)
  ∨ (level = 2 ∧ levelCost level = 3) ∨ (3 ≤ level ∧ levelCost level = 8).
Proof.
  unfold levelCost, costs.
  destruct (Z.to_nat level) as [|[|[|n]]] eqn:Hn; cbn [take sumZ foldr].
  - left. split; [lia|done].
  - right. left. split; [lia|done].
  - right. right. left. split; [lia|done].
  - right. right. right. split; [lia|]. by rewrite take_nil.
Qed.

Lemma sumZ_levelCost_bounds (levels : list Z) :
  0 ≤ sumZ (levelCost <$> levels) ≤ 8 * Z.of_nat (length levels) ∧
  (sumZ (levelCost <$> levels) = 0 ↔ Forall (λ level, level ≤ 0) levels).
Proof.
  induction levels as [|level levels [IH1 IH2]].
  - split; [simpl; lia|]. split; [by constructor|done].
  - rewrite fmap_cons. unfold sumZ in *. cbn [foldr length].
    rewrite Forall_cons.
    destruct (levelCost_cases level) as [[? ->]|[[? ->]|[[? ->]|[? ->]]]];
      split; try lia; split; intros; try lia; intuition lia.
Qed.

Lemma calculateAbilityPointsUsed_list upgrades :
  calculateAbilityPointsUsed upgrades
  = sumZ (levelCost <$> (map_to_list upgrades).*2).
Proof.
  unfold calculateAbilityPointsUsed. rewrite map_fold_foldr.
  apply (foldr_levelCost (map_to_list upgrades)).
Qed.
End points_used.

(** X14: the points used lie between 0 and 8 for each ability of the
    mapping: a level of 3 or more costs 8 and a level of 0 or less costs
    nothing; the points used are 0 exactly when no level is above 0. *)
Theorem calculateAbilityPointsUsed_bounds (upgrades : gmap string Z) :
  0 ≤ calculateAbilityPointsUsed upgrades ≤ 8 * Z.of_nat (size upgrades) ∧
  (calculateAbilityPointsUsed upgrades = 0 ↔ map_Forall (λ _ level, level ≤ 0) upgrades) ∧
  (∀ abilityId level, upgrades !! abilityId = None → 3 ≤ level →
     calculateAbilityPointsUsed (<[abilityId := level]> upgrades)
     = calculateAbilityPointsUsed upgrades + 8).
Proof.
  destruct (sumZ_levelCost_bounds (map_to_list upgrades).*2) as [Hb Hz].
  rewrite length_fmap, length_map_to_list in Hb.
  split; [|split].
  - by rewrite calculateAbilityPointsUsed_list.
  - rewrite calculateAbilityPointsUsed_list, Hz.
    rewrite map_Forall_to_list, Forall_fmap.
    apply Forall_proper; [|done]. by intros [k level].
  - intros abilityId level Hnone Hlevel.
    unfold calculateAbilityPointsUsed.
    rewrite map_fold_insert_L; [|intros; rewrite !addCosts_levelCost; lia|done].
    rewrite addCosts_levelCost.
    destruct (levelCost_cases level) as [[? ?]|[[? ?]|[[? ?]|[? ->]]]]; lia.
Qed.

Lemma calculateAbilityPointsUsed_bounds_witness :
  ({[ "a" := 1 ]} : gmap string Z) !! "b" = None ∧ 3 ≤ 5 ∧
  calculateAbilityPointsUsed (<["b" := 5]> {[ "a" := 1 ]})
  = calculateAbilityPointsUsed {[ "a" := 1 ]} + 8.
Proof.
  assert (H1 : ({[ "a" := 1 ]} : gmap string Z) !! "b" = None) by reflexivity.
  assert (H2 : 3 ≤ 5) by lia.
  split; [exact H1|]. split; [exact H2|].
  exact (proj2 (proj2 (calculateAbilityPointsUsed_bounds {[ "a" := 1 ]})) "b" 5 H1 H2).
Defined.

Section panel_points.
Implicit Types (upgrades : gmap string Z) (level : Z) (total : number).

Lemma of_Z_add (x y : Z) :
  Number.add (Number.of_Z x) (Number.of_Z y) = Number.of_Z (x + y).
Proof.
  unfold Number.of_Z. cbn [Number.add]. f_equal. apply Qc_is_canon.
  cbn [this Qcplus Q2Qc Qc_of_Z]. rewrite Qred_correct. by rewrite inject_Z_plus.
Qed.

Lemma add_NaN_l (y : number) : Number.add NaN y = NaN.
Proof. done. Qed.

Lemma add_NaN_r (x : number) : Number.add x NaN = NaN.
Proof. by destruct x. Qed.

Lemma foldl_panel_NaN (l : list nat) :
  foldl (λ total i, Number.add total (Number.of_property (Number.of_Z <$> costs !! i)))
        NaN l = NaN.
Proof. induction l as [|i l IH]; [done|]. cbn [foldl]. by rewrite add_NaN_l. Qed.

Lemma addPanelCosts_NaN level : addPanelCosts level NaN = NaN.
Proof. apply foldl_panel_NaN. Qed.

(** Up to level 3 the panel's loop adds what the calculator's loop adds. *)
Lemma addPanelCosts_low level (t : Z) :
  level ≤ 3 → addPanelCosts level (Number.of_Z t) = Number.of_Z (t + levelCost level).
Proof.
  intros Hle. unfold addPanelCosts, levelCost.
  destruct (Z.to_nat level) as [|[|[|[|n]]]] eqn:Hn; [| | | |lia];
    cbn [seq foldl costs lookup list_lookup fmap option_fmap option_map
         Number.of_property default from_option id take sumZ foldr];
    rewrite ?of_Z_add; f_equal; lia.
Qed.

(** Past level 3 it reads [costs[3]], which is [undefined]. *)
Lemma addPanelCosts_high level total : 3 < level → addPanelCosts level total = NaN.
Proof.
  intros Hlt. unfold addPanelCosts.
  replace (Z.to_nat level) with (4 + (Z.to_nat level - 4))%nat by lia.
  rewrite seq_app, foldl_app.
  cbn [seq foldl costs lookup list_lookup fmap option_fmap option_map
       Number.of_property default from_option id].
  rewrite add_NaN_r. apply foldl_panel_NaN.
Qed.

Lemma foldr_panel_low (l : list (string * Z)) :
  Forall (λ kv, kv.2 ≤ 3) l →
  foldr (uncurry (λ (_ : string) level total, addPanelCosts level total)) Number.zero l
  = Number.of_Z (sumZ (levelCost <$> l.*2)).
Proof.
  induction 1 as [|[k level] l Hle _ IH]; [done|].
  cbn [foldr uncurry]. rewrite IH, addPanelCosts_low by done.
  rewrite !fmap_cons. unfold sumZ. cbn [foldr snd]. f_equal. lia.
Qed.

Lemma foldr_panel_high (l : list (string * Z)) :
  Exists (λ kv, 3 < kv.2) l →
  foldr (uncurry (λ (_ : string) level total, addPanelCosts level total)) Number.zero l
  = NaN.
Proof.
  induction 1 as [[k level] l Hlt|[k level] l _ IH]; cbn [foldr uncurry].
  - by apply addPanelCosts_high.
  - rewrite IH. apply addPanelCosts_NaN.
Qed.
End panel_points.

(** X15: the total of [AbilityPanel.getTotalPointsUsed] is the one of
    [calculateAbilityPointsUsed] as long as no level is above 3; with a
    level above 3 the panel's loop runs past the end of its cost list and
    the total is NaN. *)
Theorem getTotalPointsUsed_calculator (upgrades : gmap string Z) :
  (map_Forall (λ _ level, level ≤ 3) upgrades →
   getTotalPointsUsed upgrades = Number.of_Z (calculateAbilityPointsUsed upgrades)) ∧
  (∀ abilityId level, upgrades !! abilityId = Some level → 3 < level →
   getTotalPointsUsed upgrades = NaN).
Proof.
  unfold getTotalPointsUsed. rewrite map_fold_foldr. split.
  - intros Hall. rewrite calculateAbilityPointsUsed_list.
    apply foldr_panel_low. apply map_Forall_to_list in Hall.
    eapply Forall_impl; [exact Hall|]. by intros [k level].
  - intros abilityId level Hin Hlt. apply foldr_panel_high.
    apply Exists_exists. exists (abilityId, level). split; [|done].
    by apply elem_of_map_to_list.
Qed.

Lemma getTotalPointsUsed_calculator_witness :
  (map_Forall (λ _ level, level ≤ 3) ({[ "a" := 3 ]} : gmap string Z) ∧
   getTotalPointsUsed {[ "a" := 3 ]}
   = Number.of_Z (calculateAbilityPointsUsed {[ "a" := 3 ]})) ∧
  (({[ "a" := 4 ]} : gmap string Z) !! "a" = Some 4 ∧ 3 < 4 ∧
   getTotalPointsUsed {[ "a" := 4 ]} = NaN).
Proof.
  assert (H1 : map_Forall (λ _ level, level ≤ 3) ({[ "a" := 3 ]} : gmap string Z)).
  { intros k level [_ <-]%lookup_singleton_Some. lia. }
  assert (H2 : ({[ "a" := 4 ]} : gmap string Z) !! "a" = Some 4) by reflexivity.
  assert (H3 : 3 < 4) by lia.
  split.
  - split; [exact H1|]. exact (proj1 (getTotalPointsUsed_calculator {[ "a" := 3 ]}) H1).
  - split; [exact H2|]. split; [exact H3|].
    exact (proj2 (getTotalPointsUsed_calculator {[ "a" := 4 ]}) "a" 4 H2 H3).
Defined.

(** X16: a click on the button of tier [level] changes the level of that
    ability only; the new level is [level] when the tier was not active
    and [level - 1] when it was, so the tier is active afterwards exactly
    when it was not before. A third click does what the first one did. *)
Theorem clickUpgrade_toggle (upgrades : gmap string Z) (abilityId : string) (level : Z) :
  let current := default 0 (upgrades !! abilityId) in
  let after := clickUpgrade upgrades abilityId level in
  (∀ other, other ≠ abilityId → after !! other = upgrades !! other) ∧
  after !! abilityId = Some (if bool_decide (level ≤ current) then level - 1 else level) ∧
  (level ≤ default 0 (after !! abilityId) ↔ ¬ level ≤ current) ∧
  clickUpgrade (clickUpgrade after abilityId level) abilityId level = after.
Proof.
  cbv zeta. unfold clickUpgrade.
  destruct (bool_decide (level ≤ default 0 (upgrades !! abilityId))) eqn:Hact.
  - apply bool_decide_eq_true in Hact.
    rewrite !lookup_insert_eq. cbn [default from_option id].
    rewrite (bool_decide_eq_false_2 (level ≤ level - 1)) by lia.
    rewrite lookup_insert_eq. cbn [default from_option id].
    rewrite (bool_decide_eq_true_2 (level ≤ level)) by lia.
    rewrite !insert_insert_eq.
    repeat split; try lia. intros other Hne. by rewrite lookup_insert_ne.
  - apply bool_decide_eq_false in Hact.
    rewrite !lookup_insert_eq. cbn [default from_option id].
    rewrite (bool_decide_eq_true_2 (level ≤ level)) by lia.
    rewrite lookup_insert_eq. cbn [default from_option id].
    rewrite (bool_decide_eq_false_2 (level ≤ level - 1)) by lia.
    rewrite !insert_insert_eq.
    repeat split; try lia; try done. intros other Hne. by rewrite lookup_insert_ne.
Qed.

Lemma clickUpgrade_toggle_witness :
  "b" ≠ "a" ∧
  clickUpgrade {[ "a" := 1; "b" := 2 ]} "a" 3 !! "b"
  = ({[ "a" := 1; "b" := 2 ]} : gmap string Z) !! "b".
Proof.
  assert (H : "b" ≠ "a") by discriminate.
  split; [exact H|].
  exact (proj1 (clickUpgrade_toggle {[ "a" := 1; "b" := 2 ]} "a" 3) "b" H).
Defined.

(** ** The levels a hero starts with *)

Section initial_upgrades.

Lemma foldl_initial_level (abilities : list Ability.t) (upgrades : gmap string Z)
    (abilityId : string) :
  foldl (λ upgrades ability, <[Ability.id ability := 0]> upgrades) upgrades abilities
    !! abilityId
  = if bool_decide (abilityId ∈ Ability.id <$> abilities) then Some 0
    else upgrades !! abilityId.
Proof.
  revert upgrades. induction abilities as [|ability abilities IH]; intros upgrades.
  - rewrite bool_decide_eq_false_2; [done|]. apply not_elem_of_nil.
  - cbn [foldl]. rewrite IH, fmap_cons.
    destruct (decide (abilityId ∈ Ability.id <$> abilities)) as [Hin|Hout].
    + rewrite !bool_decide_eq_true_2; [done| |done]. by apply list_elem_of_further.
    + rewrite (bool_decide_eq_false_2 _ Hout).
      destruct (decide (abilityId = Ability.id ability)) as [->|Hne].
      * rewrite lookup_insert_eq. rewrite bool_decide_eq_true_2; [done|].
        apply list_elem_of_here.
      * rewrite lookup_insert_ne by done. rewrite bool_decide_eq_false_2; [done|].
        rewrite elem_of_cons. tauto.
Qed.

Lemma initialUpgrades_zero (hero : Hero.t) :
  map_Forall (λ _ level, level = 0) (initialUpgrades hero).
Proof.
  intros abilityId level. unfold initialUpgrades. rewrite foldl_initial_level.
  case_bool_decide; [congruence|]. by rewrite lookup_empty.
Qed.
End initial_upgrades.

(** X17: after [setHero] the panel holds a level for the abilities of the
    hero and for nothing else, every level is 0, and both counts of the
    points used give 0. *)
Theorem initialUpgrades_fresh (hero : Hero.t) :
  (∀ abilityId,
     initialUpgrades hero !! abilityId
     = if bool_decide (abilityId ∈ Ability.id <$> Hero.abilities hero) then Some 0
       else None) ∧
  calculateAbilityPointsUsed (initialUpgrades hero) = 0 ∧
  getTotalPointsUsed (initialUpgrades hero) = Number.zero.
Proof.
  pose proof (initialUpgrades_zero hero) as Hzero.
  assert (Hlist : Forall (λ kv : string * Z, kv.2 = 0) (map_to_list (initialUpgrades hero))).
  { apply map_Forall_to_list in Hzero. eapply Forall_impl; [exact Hzero|]. by intros [k level]. }
  assert (Hused : sumZ (levelCost <$> (map_to_list (initialUpgrades hero)).*2) = 0).
  { apply sumZ_levelCost_bounds. rewrite Forall_fmap.
    eapply Forall_impl; [exact Hlist|]. intros [k level]. simpl. lia. }
  split; [|split].
  - intros abilityId. unfold initialUpgrades. rewrite foldl_initial_level.
    by rewrite lookup_empty.
  - by rewrite calculateAbilityPointsUsed_list.
  - unfold getTotalPointsUsed. rewrite map_fold_foldr, foldr_panel_low.
    + by rewrite Hused.
    + eapply Forall_impl; [exact Hlist|]. intros [k level]. simpl. lia.
Qed.

Section upgrade_bonus.
Implicit Types (us : list Upgrade.t) (level : Z).

Lemma parseInt_nonneg (digits : list ascii) : 0 ≤ parseInt digits.
Proof.
  unfold parseInt.
  cut (∀ acc, 0 ≤ acc → 0 ≤ foldl (λ acc c, 10 * acc + digit_value c) acc digits).
  { intros H. by apply H. }
  induction digits as [|c digits IH]; intros acc Hacc; [done|].
  cbn [foldl]. apply IH. unfold digit_value. lia.
Qed.

Lemma addUpgradeDamage_shift (u : Upgrade.t) (acc : Z) :
  addUpgradeDamage u acc = acc + addUpgradeDamage u 0 ∧ 0 ≤ addUpgradeDamage u 0.
Proof.
  unfold addUpgradeDamage. destruct (regex_match _) as [g|]; [|lia].
  pose proof (parseInt_nonneg g). lia.
Qed.

Lemma upgrade_block_sum (t : Z) (o : option Upgrade.t) level (acc : Z) :
  match o with
  | Some u => if bool_decide (t ≤ level) then addUpgradeDamage u acc else acc
  | None => acc
  end
  = acc + sumZ ((λ u, addUpgradeDamage u 0)
                <$> (if bool_decide (t ≤ level) then option_list o else [])).
Proof.
  destruct o as [u|]; [case_bool_decide|].
  - destruct (addUpgradeDamage_shift u acc) as [-> _].
    change (option_list (Some u)) with [u]. rewrite list_fmap_singleton.
    unfold sumZ. cbn [foldr]. lia.
  - unfold sumZ. rewrite fmap_nil. cbn [foldr]. lia.
  - replace (if bool_decide (t ≤ level) then option_list None else [])
      with (@nil Upgrade.t) by (by destruct (bool_decide _)).
    unfold sumZ. rewrite fmap_nil. cbn [foldr]. lia.
Qed.

Lemma sumZ_nonneg (l : list Z) : Forall (λ x, 0 ≤ x) l → 0 ≤ sumZ l.
Proof. induction 1; unfold sumZ in *; simpl; lia. Qed.

Lemma sumZ_bonus_nonneg us : 0 ≤ sumZ ((λ u, addUpgradeDamage u 0) <$> us).
Proof.
  apply sumZ_nonneg, Forall_fmap, Forall_forall. intros u _.
  exact (proj2 (addUpgradeDamage_shift u 0)).
Qed.

(** The upgrade bonus of a result, as a sum over the tiers reached. *)
Lemma calculateAbilityDamage_upgradeBonus (ability : Ability.t) (sp : number) level r :
  calculateAbilityDamage ability sp level = Some r →
  upgradeBonus r
  = sumZ ((λ u, addUpgradeDamage u 0)
          <$> take (Z.to_nat level) (take 3 (Ability.upgrades ability))) ∧
  Ability.baseDamage ability = Some (base r).
Proof.
  unfold calculateAbilityDamage.
  destruct (Ability.baseDamage ability) as [baseDamage|]; [|done].
  destruct (negb (Number.truthy baseDamage)); [done|]. intros [= <-].
  cbn [upgradeBonus base]. split; [|done].
  rewrite <- tiers_take.
  rewrite (upgrade_block_sum 1), (upgrade_block_sum 2), (upgrade_block_sum 3).
  rewrite !fmap_app, !sumZ_app. lia.
Qed.
End upgrade_bonus.

(** X18: the upgrade bonus that [calculateAbilityDamage] reports depends on
    the ability and on the level only, not on the spirit power. It is
    never negative, 0 for a level of 0 or less, does not go down when the
    level goes up, and is the same for every level from 3 on. *)
Theorem calculateAbilityDamage_upgradeBonus_monotone (ability : Ability.t)
    (spiritPower spiritPower' : number) (level level' : Z)
    (r r' : AbilityDamage) :
  calculateAbilityDamage ability spiritPower level = Some r →
  calculateAbilityDamage ability spiritPower' level' = Some r' →
  level ≤ level' →
  0 ≤ upgradeBonus r ≤ upgradeBonus r' ∧
  (level' ≤ 0 → upgradeBonus r' = 0) ∧
  (3 ≤ level → upgradeBonus r = upgradeBonus r') ∧
  (level = level' → upgradeBonus r = upgradeBonus r') ∧
  base r = base r'.
Proof.
  intros Hr Hr' Hle.
  apply calculateAbilityDamage_upgradeBonus in Hr as [-> Hb].
  apply calculateAbilityDamage_upgradeBonus in Hr' as [-> Hb'].
  set (us := take 3 (Ability.upgrades ability)).
  assert (Hlen : (length us ≤ 3)%nat) by (unfold us; rewrite length_take; lia).
  assert (Hsplit : take (Z.to_nat level') us
                   = take (Z.to_nat level) us ++ drop (Z.to_nat level) (take (Z.to_nat level') us)).
  { rewrite <- (take_drop (Z.to_nat level) (take (Z.to_nat level') us)) at 1.
    rewrite take_take. by replace (Z.to_nat level `min` Z.to_nat level')%nat
      with (Z.to_nat level) by lia. }
  split; [|split; [|split; [|split]]].
  - rewrite Hsplit, fmap_app, sumZ_app.
    pose proof (sumZ_bonus_nonneg (take (Z.to_nat level) us)).
    pose proof (sumZ_bonus_nonneg (drop (Z.to_nat level) (take (Z.to_nat level') us))).
    lia.
  - intros H0. by replace (Z.to_nat level') with 0%nat by lia.
  - intros H3. by rewrite !take_ge by lia.
  - by intros ->.
  - congruence.
Qed.

Lemma calculateAbilityDamage_upgradeBonus_monotone_witness :
  ∃ r r',
    calculateAbilityDamage exampleAbility (Number.of_Z 20) 1 = Some r ∧
    calculateAbilityDamage exampleAbility (Number.of_Z 0) 3 = Some r' ∧
    1 ≤ 3 ∧ 0 ≤ upgradeBonus r ≤ upgradeBonus r'.
Proof.
  eexists _, _. split; [reflexivity|]. split; [reflexivity|].
  assert (H : 1 ≤ 3) by lia. split; [exact H|].
  exact (proj1 (calculateAbilityDamage_upgradeBonus_monotone exampleAbility
                  (Number.of_Z 20) (Number.of_Z 0) 1 3 _ _ eq_refl eq_refl H)).
Defined.

Section effective_health.

Lemma Qc_of_Z_0 : Qc_of_Z 0 = 0%Qc.
Proof. by apply Qc_is_canon. Qed.

Lemma Qc_of_Z_1 : Qc_of_Z 1 = 1%Qc.
Proof. by apply Qc_is_canon. Qed.

Lemma Qc_pos_ne_0 (d : Qc) : (0 < d)%Qc → d ≠ 0%Qc.
Proof. intros Hd Heq. by apply (Qclt_not_eq _ _ Hd). Qed.

Lemma Qcdiv_ge (h d : Qc) : (0 ≤ h)%Qc → (0 < d)%Qc → (d ≤ 1)%Qc → (h ≤ h / d)%Qc.
Proof.
  intros Hh Hd Hd1.
  assert (Hne : d ≠ 0%Qc) by by apply Qc_pos_ne_0.
  apply (Qcmult_lt_0_le_reg_r _ _ d Hd).
  unfold Qcdiv. rewrite <- Qcmult_assoc, (Qcmult_inv_l d Hne), Qcmult_1_r.
  rewrite <- (Qcmult_1_l h) at 2. rewrite (Qcmult_comm h d).
  by apply Qcmult_le_compat_r.
Qed.
End effective_health.

(** X19: [calculateEffectiveHealth] gives +Infinity from a resist of 1 on,
    whatever the health; the health itself at a resist of 0; and for a
    resist from 0 up to but not 1 and a health that is not negative, a
    value that is at least the health. *)
Theorem calculateEffectiveHealth_bounds (health resist : number) :
  (Number.geb resist Number.one = true →
   calculateEffectiveHealth health resist = PosInf) ∧
  (resist = Number.zero → calculateEffectiveHealth health resist = health) ∧
  (numLe Number.zero health → numLe Number.zero resist →
   Number.geb resist Number.one = false →
   numLe health (calculateEffectiveHealth health resist)).
Proof.
  unfold calculateEffectiveHealth. split; [|split].
  - by intros ->.
  - intros ->. cbn [Number.geb Number.zero Number.one Number.of_Z].
    rewrite bool_decide_eq_false_2.
    2:{ rewrite Qc_of_Z_0, Qc_of_Z_1. by intros ?%Qcle_not_lt. }
    replace (Number.sub Number.one Number.zero) with (Fin 1%Qc)
      by (unfold Number.sub, Number.one, Number.zero, Number.of_Z;
          cbn [Number.opp Number.add]; f_equal; by apply Qc_is_canon).
    destruct health as [h| | |]; cbn [Number.div]; try done.
    rewrite bool_decide_eq_false_2 by done. f_equal.
    unfold Qcdiv. replace (/ 1)%Qc with 1%Qc by (by apply Qc_is_canon).
    apply Qcmult_1_r.
  - unfold numLe. intros Hh Hr Hlt. rewrite Hlt.
    destruct resist as [r| | |]; try done.
    cbn [Number.geb Number.zero Number.one Number.of_Z] in Hr, Hlt.
    rewrite Qc_of_Z_0 in Hr. rewrite Qc_of_Z_1 in Hlt.
    apply bool_decide_eq_true in Hr. apply bool_decide_eq_false in Hlt.
    apply Qcnot_le_lt in Hlt.
    unfold Number.sub. cbn [Number.opp Number.add Number.one Number.of_Z].
    rewrite Qc_of_Z_1.
    assert (Hd : (0 < 1 + - r)%Qc).
    { apply (proj2 (Qcplus_lt_mono_r _ _ r)).
      by rewrite Qcplus_0_l, <- Qcplus_assoc, (Qcplus_comm (- r) r), Qcplus_opp_r, Qcplus_0_r. }
    assert (Hd1 : (1 + - r ≤ 1)%Qc).
    { apply (proj2 (Qcplus_le_mono_r _ _ r)).
      rewrite <- Qcplus_assoc, (Qcplus_comm (- r) r), Qcplus_opp_r, Qcplus_0_r.
      rewrite <- (Qcplus_0_r 1) at 1. by apply Qcplus_le_mono_l. }
    assert (Hne : (1 + - r)%Qc ≠ 0%Qc) by by apply Qc_pos_ne_0.
    destruct health as [h| | |]; try done.
    + cbn [Number.geb Number.zero Number.of_Z] in Hh. rewrite Qc_of_Z_0 in Hh.
      apply bool_decide_eq_true in Hh.
      cbn [Number.div]. rewrite bool_decide_eq_false_2 by done.
      cbn [Number.geb]. apply bool_decide_eq_true. by apply Qcdiv_ge.
    + cbn [Number.div]. unfold Number.sgn.
      destruct ((1 + - r) ?= 0)%Qc eqn:Hc; try done.
      apply Qclt_alt in Hc. exfalso.
      by apply (Qclt_not_le _ _ Hc), Qclt_le_weak.
Qed.

Lemma calculateEffectiveHealth_bounds_witness :
  numLe Number.zero (Number.of_Z 600) ∧
  numLe Number.zero (Number.of_frac 1 2) ∧
  Number.geb (Number.of_frac 1 2) Number.one = false ∧
  numLe (Number.of_Z 600)
        (calculateEffectiveHealth (Number.of_Z 600) (Number.of_frac 1 2)).
Proof.
  assert (H1 : numLe Number.zero (Number.of_Z 600)) by (vm_compute; reflexivity).
  assert (H2 : numLe Number.zero (Number.of_frac 1 2)) by (vm_compute; reflexivity).
  assert (H3 : Number.geb (Number.of_frac 1 2) Number.one = false)
    by (vm_compute; reflexivity).
  split; [exact H1|]. split; [exact H2|]. split; [exact H3|].
  exact (proj2 (proj2 (calculateEffectiveHealth_bounds
                         (Number.of_Z 600) (Number.of_frac 1 2))) H1 H2 H3).
Defined.

(** ** How [calculateStats] accumulates the stats of the items *)

Section stat_accumulation.

Lemma applyStat_insert (stat : string) (value : number) (stats : gmap string number) :
  applyStat stat value stats
  = <[stat := Number.add (Number.or_default (stats !! stat) Number.zero) value]> stats.
Proof.
  unfold applyStat. destruct (_ || _); [done|]. by destruct (_ || _ || _).
Qed.

Lemma map_fold_applyStat_lookup (entries stats : gmap string number) (k : string) :
  map_fold applyStat stats entries !! k
  = match entries !! k with
    | Some value => Some (Number.add (Number.or_default (stats !! k) Number.zero) value)
    | None => stats !! k
    end.
Proof.
  apply (map_fold_weak_ind (λ r m, r !! k
    = match m !! k with
      | Some value => Some (Number.add (Number.or_default (stats !! k) Number.zero) value)
      | None => stats !! k
      end)).
  - by rewrite lookup_empty.
  - intros i x m r Hnone IH. rewrite applyStat_insert.
    destruct (decide (i = k)) as [->|Hne].
    + rewrite !lookup_insert_eq. by rewrite IH, Hnone.
    + by rewrite !lookup_insert_ne.
Qed.

Lemma applyItem_lookup acc (item : option Item) (k : string) :
  (applyItem acc item).2 !! k
  = match modifier k item with
    | Some value => Some (Number.add (Number.or_default (acc.2 !! k) Number.zero) value)
    | None => acc.2 !! k
    end.
Proof.
  destruct item as [it|]; [|done]. unfold applyItem, modifier. cbn [snd].
  destruct (Item.stats it) as [entries|]; [|done].
  apply map_fold_applyStat_lookup.
Qed.

Lemma foldl_applyItem_lookup (items : list (option Item)) acc (k : string) :
  (foldl applyItem acc items).2 !! k = accumulateStat k (acc.2 !! k) items.
Proof.
  revert acc. induction items as [|item items IH]; intros acc; [done|].
  cbn [foldl]. rewrite IH. unfold accumulateStat. cbn [foldl].
  by rewrite applyItem_lookup.
Qed.

Lemma accumulateStat_no_modifier (k : string) start (items : list (option Item)) :
  Forall (λ item, modifier k item = None) items →
  accumulateStat k start items = start.
Proof.
  unfold accumulateStat. induction 1 as [|item items Hitem _ IH]; [done|].
  cbn [foldl]. by rewrite Hitem.
Qed.

Lemma or_default_bonus (totals : gmap string Z) :
  let bonuses := calculateInvestmentBonuses totals in
  Number.or_default (Some (weapon_weaponDamage bonuses)) Number.zero
    = weapon_weaponDamage bonuses ∧
  Number.or_default (Some (vitality_health bonuses)) Number.zero
    = vitality_health bonuses ∧
  Number.or_default (Some (spirit_spiritPower bonuses)) Number.zero
    = spirit_spiritPower bonuses.
Proof.
  unfold calculateInvestmentBonuses.
  cbn [weapon_weaponDamage vitality_health spirit_spiritPower].
  repeat split; repeat (destruct (reaches _ _); [reflexivity|]); reflexivity.
Qed.
End stat_accumulation.



(** X21: the three stats that carry an investment bonus. In the result of
    [calculateStats], weaponDamage, health and spiritPower are what the
    items accumulated for them plus the bonus of the weapon, vitality and
    spirit track; a health that neither the character nor an item defines
    is read as [undefined], so the sum is NaN. *)
Theorem calculateStats_investment_stats (hero : Hero.t) (items : list (option Item))
    (abilityUpgrades : gmap string Z) :
  let result := calculateStats hero items abilityUpgrades in
  let accumulated k :=
    Number.of_property
      (accumulateStat k (initializeStats (Hero.baseStats hero) !! k) items) in
  values result !! "weaponDamage"
    = Some (Number.add (accumulated "weaponDamage")
              (weapon_weaponDamage (investmentBonuses result))) ∧
  values result !! "health"
    = Some (Number.add (accumulated "health")
              (vitality_health (investmentBonuses result))) ∧
  values result !! "spiritPower"
    = Some (Number.add (accumulated "spiritPower")
              (spirit_spiritPower (investmentBonuses result))) ∧
  (Hero.baseStats hero !! "health" = None →
   Forall (λ item, modifier "health" item = None) items →
   values result !! "health" = Some NaN).
Proof.
  cbv zeta.
  pose proof (foldl_applyItem_lookup items
    ({[ "weapon" := 0; "vitality" := 0; "spirit" := 0 ]},
     initializeStats (Hero.baseStats hero))) as Hfold.
  unfold calculateStats.
  destruct (foldl applyItem _ _) as [investmentTotals stats].
  cbn [snd] in Hfold. cbn [values investmentBonuses].
  destruct (or_default_bonus investmentTotals) as (Hw & Hv & Hs).
  assert (Hhealth : deriveCombatStats
            (applyInvestmentBonuses (calculateInvestmentBonuses investmentTotals) stats)
            !! "health"
          = Some (Number.add
              (Number.of_property
                 (accumulateStat "health"
                    (initializeStats (Hero.baseStats hero) !! "health") items))
              (vitality_health (calculateInvestmentBonuses investmentTotals)))).
  { rewrite deriveCombatStats_other
      by (rewrite !not_elem_of_cons; repeat split; first [done | apply not_elem_of_nil]).
    rewrite applyInvestmentBonuses_health. unfold prop. by rewrite Hfold, Hv. }
  repeat split.
  - rewrite lookup_insert_ne by done.
    rewrite deriveCombatStats_other
      by (rewrite !not_elem_of_cons; repeat split; first [done | apply not_elem_of_nil]).
    rewrite applyInvestmentBonuses_weaponDamage. unfold prop. by rewrite Hfold, Hw.
  - by rewrite lookup_insert_ne.
  - rewrite lookup_insert_ne by done.
    rewrite deriveCombatStats_other
      by (rewrite !not_elem_of_cons; repeat split; first [done | apply not_elem_of_nil]).
    rewrite applyInvestmentBonuses_spiritPower. unfold prop. by rewrite Hfold, Hs.
  - intros Hbase Hitems. rewrite lookup_insert_ne by done. rewrite Hhealth.
    assert (Hnone : accumulateStat "health"
              (initializeStats (Hero.baseStats hero) !! "health") items = None).
    { rewrite initializeStats_other
        by (first [done | unfold derivedAccumulators; rewrite !not_elem_of_cons;
                          repeat split; first [done | apply not_elem_of_nil]]).
      rewrite Hbase. by apply accumulateStat_no_modifier. }
    rewrite Hnone. reflexivity.
Qed.

Lemma calculateStats_investment_stats_witness :
  Hero.baseStats (Hero.mk "hero" "Hero" ∅ []) !! "health" = None ∧
  Forall (λ item, modifier "health" item = None) [Some (sampleItem "a" 500)] ∧
  values (calculateStats (Hero.mk "hero" "Hero" ∅ []) [Some (sampleItem "a" 500)] ∅)
    !! "health" = Some NaN.
Proof.
  assert (H1 : Hero.baseStats (Hero.mk "hero" "Hero" ∅ []) !! "health" = None)
    by reflexivity.
  assert (H2 : Forall (λ item, modifier "health" item = None)
                 [Some (sampleItem "a" 500)]).
  { apply Forall_cons_2; [reflexivity|apply Forall_nil_2]. }
  split; [exact H1|]. split; [exact H2|].
  exact (proj2 (proj2 (proj2 (calculateStats_investment_stats
           (Hero.mk "hero" "Hero" ∅ []) [Some (sampleItem "a" 500)] ∅))) H1 H2).
Defined.

(** ** The image address of an item *)

Section image_address.

Lemma replaceWhitespace_no_space (inRun : bool) (s : list ascii) :
  Forall (λ c, is_space c = false) (replaceWhitespace inRun s).
Proof.
  revert inRun. induction s as [|c s IH]; intros inRun; [constructor|].
  cbn [replaceWhitespace]. destruct (is_space c) eqn:Hc.
  - destruct inRun; [apply IH|]. constructor; [reflexivity|apply IH].
  - constructor; [exact Hc|apply IH].
Qed.

Lemma replaceWhitespace_plain (s : list ascii) :
  Forall (λ c, is_space c = false) s → replaceWhitespace false s = s.
Proof.
  induction 1 as [|c s Hc _ IH]; [done|].
  cbn [replaceWhitespace]. by rewrite Hc, IH.
Qed.

Lemma replaceApostrophes_plain (s : list ascii) :
  Forall (λ c, is_space c = false) s → Forall plain (replaceApostrophes s).
Proof.
  unfold replaceApostrophes.
  induction 1 as [|c s Hc _ IH]; [constructor|].
  cbn [flat_map]. case_bool_decide as Hq.
  - apply Forall_app. split; [|exact IH].
    unfold plain. by repeat constructor.
  - by constructor.
Qed.

Lemma replaceApostrophes_id (s : list ascii) :
  Forall (λ c, c ≠ "'"%char) s → replaceApostrophes s = s.
Proof.
  unfold replaceApostrophes.
  induction 1 as [|c s Hc _ IH]; [done|].
  cbn [flat_map]. rewrite bool_decide_eq_false_2 by done. by rewrite IH.
Qed.
End image_address.

(** X22: [getItemImageUrl] gives null for a missing or empty name. For any
    other name the address is the wiki's base address, the converted name
    and ".png"; the converted name holds no white space and no apostrophe,
    and a name that has neither is taken as it is. *)
Theorem getItemImageUrl_address (itemName : list ascii) :
  getItemImageUrl None = None ∧
  getItemImageUrl (Some []) = None ∧
  (itemName ≠ [] →
   ∃ wikiName,
     getItemImageUrl (Some itemName)
       = Some (chars WIKI_BASE_URL ++ wikiName ++ chars ".png") ∧
     Forall plain wikiName ∧
     (Forall plain itemName → wikiName = itemName)).
Proof.
  split; [done|]. split; [done|]. intros Hne.
  exists (replaceApostrophes (replaceWhitespace false itemName)).
  split; [by destruct itemName|]. split.
  - apply replaceApostrophes_plain, replaceWhitespace_no_space.
  - intros Hplain. rewrite replaceWhitespace_plain.
    + apply replaceApostrophes_id. eapply Forall_impl; [exact Hplain|]. by intros c [_ ?].
    + eapply Forall_impl; [exact Hplain|]. by intros c [? _].
Qed.

Lemma getItemImageUrl_address_witness :
  chars "Tesla Bullets" ≠ [] ∧
  ∃ wikiName,
    getItemImageUrl (Some (chars "Tesla Bullets"))
      = Some (chars WIKI_BASE_URL ++ wikiName ++ chars ".png") ∧
    Forall plain wikiName.
Proof.
  assert (H : chars "Tesla Bullets" ≠ []) by discriminate.
  split; [exact H|].
  destruct (proj2 (proj2 (getItemImageUrl_address (chars "Tesla Bullets"))) H)
    as (wikiName & Hurl & Hplain & _).
  exists wikiName. split; [exact Hurl|exact Hplain].
Defined.

(** The example of the source's comment, and a name with an apostrophe. *)
Example getItemImageUrl_examples :
  getItemImageUrl (Some (chars "Tesla Bullets"))
    = Some (chars "https://deadlock.wiki/Special:Redirect/file/Tesla_Bullets.png") ∧
  getItemImageUrl (Some (chars "Hunter's  Aura"))
    = Some (chars "https://deadlock.wiki/Special:Redirect/file/Hunter%27s_Aura.png").
Proof. split; reflexivity. Qed.
